(** * OpenGamma indicator: the regime-sync client of the PublicGex dashboard

    A shallow embedding of [src/OpenGamma.cs]: the hand-written line decoder
    ([ExtractJsonValue], [ExtractNum], [ParseGammaLevels]), the two critical
    sections of [ParseRegimeUpdate] and the level adjustment, followed by the
    properties the specification states about them.

    Modelling choices.
    - A C# [string] is a [string]; a C# [char] is an [ascii], so lines range
      over the Latin-1 code units (the producer writes ASCII JSON).
    - A C# [int] is a [Z]: every index is bounded by a string length, far
      from the 32-bit limits.
    - A C# [double] is a primitive binary64 [float].
    - Library calls that can throw ([Substring], the indexer, [IndexOf] with
      a start index) return a [result]; instance fields live in a record that
      is threaded through a state-and-exception monad, so that a field
      written before a throw stays written, as in C#. *)

From Stdlib Require Import ZArith String Ascii List Bool Lia.
From Stdlib Require Import PrimFloat Uint63.
Import ListNotations.

Local Open Scope Z_scope.
Set Warnings "-inexact-float".

(** ** The base-library calls the indicator relies on *)

Module DotNet.

Inductive exn : Set :=
| ArgumentOutOfRangeException
| IndexOutOfRangeException.

Inductive result (A : Type) : Type :=
| Ok (a : A)
| Throw (e : exn).

Arguments Ok {A} a.
Arguments Throw {A} e.

Definition rbind {A B : Type} (r : result A) (k : A -> result B) : result B :=
  match r with
  | Ok a => k a
  | Throw e => Throw e
  end.

(** [s.Length] *)
Definition Length (s : string) : Z := Z.of_nat (String.length s).

Fixpoint drop (n : nat) (s : string) : string :=
  match n, s with
  | O, _ => s
  | S _, EmptyString => EmptyString
  | S n', String _ s' => drop n' s'
  end.

Fixpoint take (n : nat) (s : string) : string :=
  match n, s with
  | O, _ => EmptyString
  | S _, EmptyString => EmptyString
  | S n', String c s' => String c (take n' s')
  end.

(** The suffix of [s] that starts at index [i]. *)
Definition from (i : Z) (s : string) : string := drop (Z.to_nat i) s.

(** [s.Substring(startIndex, length)] *)
Definition Substring (s : string) (startIndex length : Z) : result string :=
  if (startIndex <? 0) || (length <? 0) || (Length s <? startIndex + length)
  then Throw ArgumentOutOfRangeException
  else Ok (take (Z.to_nat length) (from startIndex s)).

(** [s[index]] *)
Definition CharAt (s : string) (index : Z) : result ascii :=
  if (index <? 0) || (Length s <=? index) then Throw IndexOutOfRangeException
  else match String.get (Z.to_nat index) s with
       | Some c => Ok c
       | None => Throw IndexOutOfRangeException
       end.

(** First index [>= i] at which [value] starts, reading [rest] as the text
    from index [i] on; [-1] when there is none.  Characters are compared by
    code unit, which is what the culture-sensitive search of the library
    does on the producer's ASCII text. *)
Fixpoint find_from (value rest : string) (i : Z) : Z :=
  if String.prefix value rest then i
  else match rest with
       | EmptyString => -1
       | String _ rest' => find_from value rest' (i + 1)
       end.

(** [s.IndexOf(value)] for a string [value] *)
Definition IndexOf (s value : string) : Z := find_from value s 0.

(** [s.IndexOf(value, startIndex)] for a char [value] *)
Definition IndexOfChar (s : string) (value : ascii) (startIndex : Z) : result Z :=
  if (startIndex <? 0) || (Length s <? startIndex)
  then Throw ArgumentOutOfRangeException
  else Ok (find_from (String value EmptyString) (from startIndex s) startIndex).

Definition code (c : ascii) : N := N_of_ascii c.

(** [char.IsWhiteSpace] on the Latin-1 range: U+0009..U+000D, U+0020,
    U+0085 and U+00A0. *)
Definition IsWhiteSpace (c : ascii) : bool :=
  let n := code c in
  ((9 <=? n) && (n <=? 13) || (n =? 32) || (n =? 133) || (n =? 160))%N.

(** [char.IsDigit] on the Latin-1 range: '0'..'9'. *)
Definition IsDigit (c : ascii) : bool :=
  let n := code c in ((48 <=? n) && (n <=? 57))%N.

Fixpoint TrimStart (s : string) : string :=
  match s with
  | EmptyString => EmptyString
  | String c s' => if IsWhiteSpace c then TrimStart s' else s
  end.

Fixpoint TrimEnd (s : string) : string :=
  match s with
  | EmptyString => EmptyString
  | String c s' =>
      match TrimEnd s' with
      | EmptyString => if IsWhiteSpace c then EmptyString else String c EmptyString
      | t => String c t
      end
  end.

(** [s.Trim()] *)
Definition Trim (s : string) : string := TrimEnd (TrimStart s).

(** [string.IsNullOrWhiteSpace(s)] for a non-null [s] *)
Fixpoint IsNullOrWhiteSpace (s : string) : bool :=
  match s with
  | EmptyString => true
  | String c s' => IsWhiteSpace c && IsNullOrWhiteSpace s'
  end.

(** [while (i < s.Length && test(s[i])) i++], reading [rest] as the text of
    [s] from index [i] on; the value is the index at which the loop stops. *)
Fixpoint scan_while (test : ascii -> bool) (rest : string) (i : Z) : Z :=
  match rest with
  | EmptyString => i
  | String c rest' => if test c then scan_while test rest' (i + 1) else i
  end.

(** The same loop started at an arbitrary [i]: a negative index passes the
    bound test and makes the indexer throw. *)
Definition WhileIndex (test : ascii -> bool) (s : string) (i : Z) : result Z :=
  if i <? 0 then Throw IndexOutOfRangeException
  else Ok (scan_while test (from i s) i).

(** [2^52]: from this magnitude on every binary64 value is an integer. *)
Definition two52 : float := 4503599627370496%float.

(** [Math.Round(double)]: the nearest integral value, midpoints going to the
    even neighbour, with the sign of the argument.  Below [2^52] adding and
    removing [2^52] performs exactly this rounding in binary64 arithmetic;
    from [2^52] on, and for NaN, the argument is returned as it is. *)
Definition Math_Round (x : float) : float :=
  let a := PrimFloat.abs x in
  if PrimFloat.ltb a two52 then
    let r := PrimFloat.sub (PrimFloat.add a two52) two52 in
    if PrimFloat.get_sign x then PrimFloat.opp r else r
  else x.

End DotNet.

Import DotNet.

Notation "x <- r ;; k" := (rbind r (fun x => k))
  (at level 61, r at next level, right associativity).

Definition dquote : ascii := "034"%char.

(** [$"\"{key}\""] *)
Definition quoted (key : string) : string :=
  String dquote (key ++ String dquote EmptyString).

(** ** The scalar extractor *)

(** [ExtractJsonValue(json, key)]; [null] is [None]. *)
Definition ExtractJsonValue (json key : string) : result (option string) :=
  let pattern := (quoted key ++ ":")%string in
  let startIdx := IndexOf json pattern in
  if startIdx <? 0 then Ok None else
  let startIdx := startIdx + Length pattern in
  startIdx <- WhileIndex IsWhiteSpace json startIdx ;;
  if startIdx >=? Length json then Ok None else
  c <- CharAt json startIdx ;;
  if (c =? dquote)%char then
    endIdx <- IndexOfChar json dquote (startIdx + 1) ;;
    if endIdx <? 0 then Ok None else
    v <- Substring json (startIdx + 1) (endIdx - startIdx - 1) ;;
    Ok (Some v)
  else
    endIdx <- WhileIndex (fun c => negb (c =? ",")%char && negb (c =? "}")%char)
                         json startIdx ;;
    v <- Substring json startIdx (endIdx - startIdx) ;;
    Ok (Some (Trim v)).

(** ** Indicator state *)

Record GammaLevel : Set := mkGammaLevel {
  Strike : float;
  Gex : float;
  FuturesPrice : float;   (* strike adjusted by spread *)
  IsResistance : bool
}.

(** The instance fields of the indicator, and the two pieces of the host the
    update path touches: whether [ChartControl] is non-null, and the work
    items posted to its dispatcher that have not run yet (each item is the
    lambda of [ParseRegimeUpdate], identified by its captured [jsonCopy]). *)
Record OpenGamma : Set := mkOpenGamma {
  currentRegime : string;
  previousRegime : string;
  regimeCode : Z;
  lastUpdate : string;
  indexPrice : float;
  futuresPrice : float;
  spread : float;
  indexSymbol : string;
  lastClosePrice : float;
  gammaLevels : list GammaLevel;
  ChartControl : bool;
  Dispatcher : list string
}.

(** Field initialisers of the class. *)
Definition initial (sym : string) (chart : bool) : OpenGamma :=
  mkOpenGamma "WAITING" "---" 0 EmptyString 0%float 0%float 0%float sym 0%float
              [] chart [].

Definition set_currentRegime (v : string) (st : OpenGamma) : OpenGamma :=
  mkOpenGamma v (previousRegime st) (regimeCode st) (lastUpdate st)
    (indexPrice st) (futuresPrice st) (spread st) (indexSymbol st)
    (lastClosePrice st) (gammaLevels st) (ChartControl st) (Dispatcher st).

Definition set_previousRegime (v : string) (st : OpenGamma) : OpenGamma :=
  mkOpenGamma (currentRegime st) v (regimeCode st) (lastUpdate st)
    (indexPrice st) (futuresPrice st) (spread st) (indexSymbol st)
    (lastClosePrice st) (gammaLevels st) (ChartControl st) (Dispatcher st).

Definition set_regimeCode (v : Z) (st : OpenGamma) : OpenGamma :=
  mkOpenGamma (currentRegime st) (previousRegime st) v (lastUpdate st)
    (indexPrice st) (futuresPrice st) (spread st) (indexSymbol st)
    (lastClosePrice st) (gammaLevels st) (ChartControl st) (Dispatcher st).

Definition set_lastUpdate (v : string) (st : OpenGamma) : OpenGamma :=
  mkOpenGamma (currentRegime st) (previousRegime st) (regimeCode st) v
    (indexPrice st) (futuresPrice st) (spread st) (indexSymbol st)
    (lastClosePrice st) (gammaLevels st) (ChartControl st) (Dispatcher st).

Definition set_indexPrice (v : float) (st : OpenGamma) : OpenGamma :=
  mkOpenGamma (currentRegime st) (previousRegime st) (regimeCode st)
    (lastUpdate st) v (futuresPrice st) (spread st) (indexSymbol st)
    (lastClosePrice st) (gammaLevels st) (ChartControl st) (Dispatcher st).

Definition set_futuresPrice (v : float) (st : OpenGamma) : OpenGamma :=
  mkOpenGamma (currentRegime st) (previousRegime st) (regimeCode st)
    (lastUpdate st) (indexPrice st) v (spread st) (indexSymbol st)
    (lastClosePrice st) (gammaLevels st) (ChartControl st) (Dispatcher st).

Definition set_spread (v : float) (st : OpenGamma) : OpenGamma :=
  mkOpenGamma (currentRegime st) (previousRegime st) (regimeCode st)
    (lastUpdate st) (indexPrice st) (futuresPrice st) v (indexSymbol st)
    (lastClosePrice st) (gammaLevels st) (ChartControl st) (Dispatcher st).

Definition set_lastClosePrice (v : float) (st : OpenGamma) : OpenGamma :=
  mkOpenGamma (currentRegime st) (previousRegime st) (regimeCode st)
    (lastUpdate st) (indexPrice st) (futuresPrice st) (spread st)
    (indexSymbol st) v (gammaLevels st) (ChartControl st) (Dispatcher st).

Definition set_gammaLevels (v : list GammaLevel) (st : OpenGamma) : OpenGamma :=
  mkOpenGamma (currentRegime st) (previousRegime st) (regimeCode st)
    (lastUpdate st) (indexPrice st) (futuresPrice st) (spread st)
    (indexSymbol st) (lastClosePrice st) v (ChartControl st) (Dispatcher st).

Definition set_Dispatcher (v : list string) (st : OpenGamma) : OpenGamma :=
  mkOpenGamma (currentRegime st) (previousRegime st) (regimeCode st)
    (lastUpdate st) (indexPrice st) (futuresPrice st) (spread st)
    (indexSymbol st) (lastClosePrice st) (gammaLevels st) (ChartControl st) v.

(** ** Methods as state transformers that may throw *)

Definition M (A : Type) : Type := OpenGamma -> result A * OpenGamma.

Definition ret {A : Type} (a : A) : M A := fun st => (Ok a, st).

Definition bind {A B : Type} (m : M A) (k : A -> M B) : M B :=
  fun st =>
    match m st with
    | (Ok a, st') => k a st'
    | (Throw e, st') => (Throw e, st')
    end.

Definition lift {A : Type} (r : result A) : M A := fun st => (r, st).

Definition gets {A : Type} (field : OpenGamma -> A) : M A :=
  fun st => (Ok (field st), st).

Definition modify (f : OpenGamma -> OpenGamma) : M unit :=
  fun st => (Ok tt, f st).

(** [try { body } catch (Exception) { handler }]: the handler starts from the
    fields as the body left them. *)
Definition try_catch (body : M unit) (handler : exn -> M unit) : M unit :=
  fun st =>
    match body st with
    | (Ok a, st') => (Ok a, st')
    | (Throw e, st') => handler e st'
    end.

(** [Print(...)] writes to the host's output window and touches no field. *)
Definition Print : M unit := ret tt.

(** [ForceRefresh()] asks the host for a repaint and touches no field. *)
Definition ForceRefresh : M unit := ret tt.

Notation "x <~ m ;; k" := (bind m (fun x => k))
  (at level 61, m at next level, right associativity).
Notation "m ;;; k" := (bind m (fun _ => k))
  (at level 61, right associativity).

(** The final fields of a run. *)
Definition exec {A : Type} (m : M A) (st : OpenGamma) : OpenGamma := snd (m st).

(** ** The level decoder *)

(** The bracket-matching loop of [ParseGammaLevels]:
    [for (i = arrStart; i < json.Length; i++)], reading [rest] as the text
    from index [i] on; the value is [arrEnd]. *)
Fixpoint find_arr_end (rest : string) (i bracketCount : Z) : Z :=
  match rest with
  | EmptyString => -1
  | String c rest' =>
      if (c =? "[")%char then find_arr_end rest' (i + 1) (bracketCount + 1)
      else if (c =? "]")%char then
        let bracketCount := bracketCount - 1 in
        if bracketCount =? 0 then i
        else find_arr_end rest' (i + 1) bracketCount
      else find_arr_end rest' (i + 1) bracketCount
  end.

Section Indicator.

(** [double.TryParse(s, out result)] and [int.TryParse(s, out result)] for a
    non-null [s]: [Some v] when the call returns [true].  Both depend on the
    culture of the host thread, and nothing below depends on what they
    accept. *)
Variable double_TryParse : string -> option float.
Variable int_TryParse : string -> option Z.

(** The [out] argument after the call: [0] when parsing fails, also on
    [null]. *)
Definition double_out (s : option string) : float :=
  match s with
  | Some s =>
      match double_TryParse s with
      | Some v => v
      | None => 0%float
      end
  | None => 0%float
  end.

Definition int_out (s : option string) : Z :=
  match s with
  | Some s =>
      match int_TryParse s with
      | Some v => v
      | None => 0
      end
  | None => 0
  end.

Definition numeric_start (c : ascii) : bool :=
  IsDigit c || (c =? "-")%char || (c =? ".")%char.

Definition numeric_body (c : ascii) : bool :=
  IsDigit c || (c =? ".")%char || (c =? "-")%char || (c =? "e")%char
  || (c =? "E")%char || (c =? "+")%char.

(** [ExtractNum(json, key)] *)
Definition ExtractNum (json key : string) : result float :=
  let keyIdx := IndexOf json (quoted key) in
  if keyIdx <? 0 then Ok 0%float else
  let valStart := keyIdx + Length key + 3 in
  valStart <- WhileIndex (fun c => negb (numeric_start c)) json valStart ;;
  if valStart >=? Length json then Ok 0%float else
  let valEnd := valStart in
  valEnd <- WhileIndex numeric_body json valEnd ;;
  token <- Substring json valStart (valEnd - valStart) ;;
  match double_TryParse token with
  | Some result => Ok result
  | None => Ok 0%float
  end.

(** [ParseGammaLevelObject(objJson)] *)
Definition ParseGammaLevelObject (objJson : string) : M unit :=
  try_catch
    (strike <~ lift (ExtractNum objJson "strike") ;;
     gex <~ lift (ExtractNum objJson "gex") ;;
     if PrimFloat.ltb 0%float strike then
       spread <~ gets spread ;;
       let futuresLevel := PrimFloat.sub strike spread in
       modify (fun st =>
         set_gammaLevels
           (gammaLevels st ++
              [ {| Strike := strike;
                   Gex := gex;
                   FuturesPrice := futuresLevel;
                   IsResistance := PrimFloat.ltb 0%float gex |} ]) st)
     else ret tt)
    (fun _ => Print).

(** The object loop of [ParseGammaLevels]:
    [for (i = 0; i < arrContent.Length; i++)], reading [rest] as the text of
    [arrContent] from index [i] on. *)
Fixpoint object_loop (arrContent rest : string) (i braceCount currentStart : Z)
  : M unit :=
  match rest with
  | EmptyString => ret tt
  | String c rest' =>
      if (c =? "{")%char then
        let currentStart := if braceCount =? 0 then i else currentStart in
        object_loop arrContent rest' (i + 1) (braceCount + 1) currentStart
      else if (c =? "}")%char then
        let braceCount := braceCount - 1 in
        if (braceCount =? 0) && (currentStart >=? 0) then
          objJson <~ lift (Substring arrContent currentStart (i - currentStart + 1)) ;;
          ParseGammaLevelObject objJson ;;;
          object_loop arrContent rest' (i + 1) braceCount (-1)
        else object_loop arrContent rest' (i + 1) braceCount currentStart
      else object_loop arrContent rest' (i + 1) braceCount currentStart
  end.

Definition levelsKey (indexSymbol : string) : string :=
  if (indexSymbol =? "NDX")%string then "gamma_levels_ndx"%string
  else "gamma_levels_spx"%string.

(** [ParseGammaLevels(json)] *)
Definition ParseGammaLevels (json : string) : M unit :=
  sym <~ gets indexSymbol ;;
  let levelsKey := levelsKey sym in
  modify (set_gammaLevels []) ;;;
  let keyIdx := IndexOf json (quoted levelsKey) in
  if keyIdx <? 0 then Print else
  arrStart <~ lift (IndexOfChar json "[" keyIdx) ;;
  if arrStart <? 0 then ret tt else
  let arrEnd := find_arr_end (from arrStart json) arrStart 0 in
  if arrEnd <? 0 then ret tt else
  arrContent <~ lift (Substring json (arrStart + 1) (arrEnd - arrStart - 1)) ;;
  if IsNullOrWhiteSpace arrContent then ret tt else
  object_loop arrContent arrContent 0 0 (-1) ;;;
  Print.

(** ** The update pipeline *)

(** The lambda that [ParseRegimeUpdate] posts to the dispatcher; it runs on
    the UI thread, inside [lock (lockObj)]. *)
Definition DispatcherJob (jsonCopy : string) : M unit :=
  try_catch
    (lastClose <~ gets lastClosePrice ;;
     if PrimFloat.ltb 0%float lastClose then
       modify (set_futuresPrice lastClose) ;;;
       index <~ gets indexPrice ;;
       (if PrimFloat.ltb 0%float index then
          futures <~ gets futuresPrice ;;
          modify (set_spread (PrimFloat.sub (Math_Round index) (Math_Round futures)))
        else ret tt) ;;;
       ParseGammaLevels jsonCopy ;;;
       Print ;;;
       ForceRefresh
     else ret tt)
    (fun _ => Print).

(** [ChartControl.Dispatcher.InvokeAsync(() => ...)] *)
Definition InvokeAsync (jsonCopy : string) : M unit :=
  modify (fun st => set_Dispatcher (Dispatcher st ++ [jsonCopy]) st).

(** [ParseRegimeUpdate(json)], run on the socket thread; [now] is
    [DateTime.Now.ToString("HH:mm:ss")] at the time of the call. *)
Definition ParseRegimeUpdate (now json : string) : M unit :=
  try_catch
    (extracted <~ lift (ExtractJsonValue json "regime") ;;
     let newRegime :=
       match extracted with
       | Some v => v
       | None => "UNKNOWN"%string
       end in
     (* lock (lockObj) *)
     current <~ gets currentRegime ;;
     (if negb (current =? "WAITING")%string && negb (current =? newRegime)%string
      then modify (set_previousRegime current)
      else ret tt) ;;;
     modify (set_currentRegime newRegime) ;;;
     codeText <~ lift (ExtractJsonValue json "regime_code") ;;
     modify (set_regimeCode (int_out codeText)) ;;;
     modify (set_lastUpdate now) ;;;
     sym <~ gets indexSymbol ;;
     (if (sym =? "NDX")%string then
        ndx <~ lift (ExtractJsonValue json "spot_ndx") ;;
        modify (set_indexPrice (double_out ndx))
      else if (sym =? "SPX")%string then
        spx <~ lift (ExtractJsonValue json "spot_spx") ;;
        modify (set_indexPrice (double_out spx))
      else ret tt) ;;;
     (* end of lock *)
     chart <~ gets ChartControl ;;
     if chart then InvokeAsync json else ret tt)
    (fun _ => Print).

(** [OnBarUpdate()], run by the host on the UI thread with the current bar
    number and [Close[0]]. *)
Definition OnBarUpdate (CurrentBar : Z) (close0 : float) : M unit :=
  if CurrentBar >? 0 then modify (set_lastClosePrice close0) else ret tt.

(** The UI thread runs the posted work items in the order they were posted. *)
Fixpoint run_jobs (jobs : list string) : M unit :=
  match jobs with
  | [] => ret tt
  | job :: jobs' => DispatcherJob job ;;; run_jobs jobs'
  end.

Definition DrainDispatcher : M unit :=
  jobs <~ gets Dispatcher ;;
  modify (set_Dispatcher []) ;;;
  run_jobs jobs.

(** One line through the whole pipeline: decoded on the socket thread, then
    the UI thread runs what has been posted. *)
Definition ApplyLine (now json : string) : M unit :=
  ParseRegimeUpdate now json ;;; DrainDispatcher.

End Indicator.

(** ** Parsers for plain numerals, used to run the decoder on sample lines *)

Fixpoint digits_value (s : string) (acc : Z) : option Z :=
  match s with
  | EmptyString => Some acc
  | String c s' =>
      if IsDigit c
      then digits_value s' (10 * acc + (Z.of_N (code c) - 48))
      else None
  end.

Definition float_of_Z (z : Z) : float :=
  PrimFloat.of_uint63 (Uint63.of_Z z).

(** Splits [s] at its first ['.']: the text before it and, when there is one,
    the text after it. *)
Fixpoint split_point (s : string) : string * option string :=
  match s with
  | EmptyString => (EmptyString, None)
  | String c s' =>
      if (c =? ".")%char then (EmptyString, Some s')
      else let (whole, frac) := split_point s' in (String c whole, frac)
  end.

Definition unsigned_decimal (s : string) : option float :=
  let (whole, frac) := split_point s in
  match whole, frac with
  | EmptyString, None => None
  | _, None => option_map float_of_Z (digits_value whole 0)
  | _, Some frac =>
      match digits_value (whole ++ frac) 0 with
      | Some m =>
          Some (PrimFloat.div (float_of_Z m)
                              (float_of_Z (10 ^ Z.of_nat (String.length frac))))
      | None => None
      end
  end.

(** An optional ['-'], digits, and an optional fractional part. *)
Definition decimal_TryParse (s : string) : option float :=
  match s with
  | String "-" s' => option_map PrimFloat.opp (unsigned_decimal s')
  | _ => unsigned_decimal s
  end.

(** An optional ['-'] and at least one digit. *)
Definition integer_TryParse (s : string) : option Z :=
  match s with
  | EmptyString => None
  | String "-" EmptyString => None
  | String "-" s' => option_map Z.opp (digits_value s' 0)
  | _ => digits_value s 0
  end.

(** Sample lines and states. *)

Definition line_grind : string :=
  String "{" (quoted "regime" ++ ":" ++ quoted "GRIND UP" ++ "," ++
              quoted "regime_code" ++ ": 1 ," ++
              quoted "spot_spx" ++ ":5000.5," ++
              quoted "gamma_levels_spx" ++ ":[{" ++
                quoted "strike" ++ ":100," ++ quoted "gex" ++ ":5000},{" ++
                quoted "strike" ++ ":110," ++ quoted "gex" ++ ":-3000}]}").

(** A line cut inside its regime value. *)
Definition line_cut : string :=
  String "{" (quoted "regime" ++ ":" ++ String dquote "GRIND").

(** A line cut inside its levels array. *)
Definition line_unterminated : string :=
  String "{" (quoted "regime" ++ ":" ++ quoted "CHOP" ++ "," ++
              quoted "gamma_levels_spx" ++ ":[{strike:1").

Definition line_no_regime : string :=
  String "{" (quoted "regime_code" ++ ":3," ++ quoted "spot_ndx" ++ ":15000.6}").

Definition line_no_spot : string :=
  String "{" (quoted "regime" ++ ":" ++ quoted "CHOP" ++ "}").

Definition sample_levels : list GammaLevel :=
  [ {| Strike := 90%float; Gex := 1%float;
       FuturesPrice := 88%float; IsResistance := true |} ].

(** An SPX chart that has seen a line: spread 2, one level stored. *)
Definition spx_state : OpenGamma :=
  mkOpenGamma "CHOP" "---" 3 "09:29:55" 5000.5%float 4998.25%float 2%float
              "SPX" 4998.25%float sample_levels true [].

(** The same fields with no chart control. *)
Definition headless_state : OpenGamma :=
  mkOpenGamma "CHOP" "---" 3 "09:29:55" 5000.5%float 4998.25%float 2%float
              "SPX" 4998.25%float sample_levels false [].

(** An NDX chart with index price 15000.6 and sampled price 15002.1. *)
Definition ndx_state : OpenGamma :=
  mkOpenGamma "CHOP" "---" 3 "09:29:55" 15000.6%float 0%float 0%float
              "NDX" 15002.1%float [] true [].

(** ** Notions of the specification *)

(** [occurs value s]: [value] is a substring of [s]. *)
Definition occurs (value s : string) : Prop :=
  exists pre post, s = (pre ++ value ++ post)%string.

(** The longest prefix of [s] whose characters all pass [test]. *)
Fixpoint span (test : ascii -> bool) (s : string) : string :=
  match s with
  | EmptyString => EmptyString
  | String c s' => if test c then String c (span test s') else EmptyString
  end.

Fixpoint contains_char (c : ascii) (s : string) : bool :=
  match s with
  | EmptyString => false
  | String d s' => (c =? d)%char || contains_char c s'
  end.

(** [$"\"{key}\":"], the text [ExtractJsonValue] looks for. *)
Definition key_pattern (key : string) : string := (quoted key ++ ":")%string.

(** What follows the first occurrence of the key pattern, leading white
    space skipped. *)
Definition value_text (json key : string) : string :=
  TrimStart (from (IndexOf json (key_pattern key) + Length (key_pattern key)) json).

(** The scalar a value text denotes: the characters between an opening quote
    and the next quote, or the trimmed text up to the next [','] or ['}'];
    nothing for an empty text or for a quote that is never closed. *)
Definition scalar_of (text : string) : option string :=
  match text with
  | EmptyString => None
  | String c rest =>
      if (c =? dquote)%char then
        if contains_char dquote rest
        then Some (span (fun d => negb (dquote =? d)%char) rest)
        else None
      else
        Some (Trim (span (fun d => negb (d =? ",")%char && negb (d =? "}")%char) text))
  end.

(** The value of a call that returned, [default] for one that threw. *)
Definition value_or {A : Type} (default : A) (r : result A) : A :=
  match r with
  | Ok a => a
  | Throw _ => default
  end.

Section LevelNotions.

Variable double_TryParse : string -> option float.

(** The raw record an object text decodes to: strike and exposure. *)
Definition raw_level (objJson : string) : float * float :=
  (value_or 0%float (ExtractNum double_TryParse objJson "strike"),
   value_or 0%float (ExtractNum double_TryParse objJson "gex")).

(** The object texts that the object loop of [ParseGammaLevels] cuts out of
    the array content, in the order it meets them. *)
Fixpoint objects_in (arrContent rest : string) (i braceCount currentStart : Z)
  : list string :=
  match rest with
  | EmptyString => []
  | String c rest' =>
      if (c =? "{")%char then
        objects_in arrContent rest' (i + 1) (braceCount + 1)
                   (if braceCount =? 0 then i else currentStart)
      else if (c =? "}")%char then
        if (braceCount - 1 =? 0) && (currentStart >=? 0) then
          take (Z.to_nat (i - currentStart + 1)) (from currentStart arrContent)
          :: objects_in arrContent rest' (i + 1) (braceCount - 1) (-1)
        else objects_in arrContent rest' (i + 1) (braceCount - 1) currentStart
      else objects_in arrContent rest' (i + 1) braceCount currentStart
  end.

(** The text between the first ['['] after the levels key and the [']'] that
    closes it; nothing when the key, the bracket or its closing bracket is
    missing. *)
Definition array_content (indexSymbol json : string) : option string :=
  let keyIdx := IndexOf json (quoted (levelsKey indexSymbol)) in
  if keyIdx <? 0 then None else
  let arrStart := find_from "[" (from keyIdx json) keyIdx in
  if arrStart <? 0 then None else
  let arrEnd := find_arr_end (from arrStart json) arrStart 0 in
  if arrEnd <? 0 then None else
  Some (take (Z.to_nat (arrEnd - arrStart - 1)) (from (arrStart + 1) json)).

(** The raw decoded level list of a line. *)
Definition raw_levels (indexSymbol json : string) : list (float * float) :=
  match array_content indexSymbol json with
  | None => []
  | Some arrContent =>
      if IsNullOrWhiteSpace arrContent then []
      else map raw_level (objects_in arrContent arrContent 0 0 (-1))
  end.

End LevelNotions.

Definition strike_positive (raw : float * float) : bool :=
  PrimFloat.ltb 0%float (fst raw).

(** A raw record expressed in the instrument's price scale. *)
Definition adjusted (spread : float) (raw : float * float) : GammaLevel :=
  {| Strike := fst raw;
     Gex := snd raw;
     FuturesPrice := PrimFloat.sub (fst raw) spread;
     IsResistance := PrimFloat.ltb 0%float (snd raw) |}.

(** The level list of the specification: the raw records with a positive
    strike, in order, each adjusted by the spread. *)
Definition adjusted_levels (spread : float) (raws : list (float * float))
  : list GammaLevel :=
  map (adjusted spread) (filter strike_positive raws).

(** The scalar [ExtractJsonValue] yields for a key, [None] for [null]. *)
Definition field (json key : string) : option string :=
  value_or None (ExtractJsonValue json key).

(** The label a line carries. *)
Definition label_of (json : string) : string :=
  match field json "regime" with
  | Some v => v
  | None => "UNKNOWN"%string
  end.

Section PipelineNotions.

Variable double_TryParse : string -> option float.
Variable int_TryParse : string -> option Z.

(** The fields once [ParseRegimeUpdate] has returned: the first critical
    section has run, and the line has been posted when there is a chart. *)
Definition after_regime_block (now json : string) (st : OpenGamma) : OpenGamma :=
  {| currentRegime := label_of json;
     previousRegime :=
       if negb (currentRegime st =? "WAITING")%string
          && negb (currentRegime st =? label_of json)%string
       then currentRegime st else previousRegime st;
     regimeCode := int_out int_TryParse (field json "regime_code");
     lastUpdate := now;
     indexPrice :=
       if (indexSymbol st =? "NDX")%string
       then double_out double_TryParse (field json "spot_ndx")
       else if (indexSymbol st =? "SPX")%string
       then double_out double_TryParse (field json "spot_spx")
       else indexPrice st;
     futuresPrice := futuresPrice st;
     spread := spread st;
     indexSymbol := indexSymbol st;
     lastClosePrice := lastClosePrice st;
     gammaLevels := gammaLevels st;
     ChartControl := ChartControl st;
     Dispatcher :=
       if ChartControl st then Dispatcher st ++ [json] else Dispatcher st |}.

(** The spread once a posted item has run on fields [st]. *)
Definition spread_after_job (st : OpenGamma) : float :=
  if PrimFloat.ltb 0%float (lastClosePrice st) then
    if PrimFloat.ltb 0%float (indexPrice st)
    then PrimFloat.sub (Math_Round (indexPrice st)) (Math_Round (lastClosePrice st))
    else spread st
  else spread st.

(** The fields once a posted item has run. *)
Definition after_job (jsonCopy : string) (st : OpenGamma) : OpenGamma :=
  if PrimFloat.ltb 0%float (lastClosePrice st) then
    set_gammaLevels
      (adjusted_levels (spread_after_job st)
         (raw_levels double_TryParse (indexSymbol st) jsonCopy))
      (set_spread (spread_after_job st)
         (set_futuresPrice (lastClosePrice st) st))
  else st.

(** The fields once a line has gone through the whole pipeline. *)
Definition after_line (now json : string) (st : OpenGamma) : OpenGamma :=
  let posted := after_regime_block now json st in
  fold_left (fun fields job => after_job job fields) (Dispatcher posted)
            (set_Dispatcher [] posted).

End PipelineNotions.

(** Two field records that agree outside [futuresPrice], [spread] and
    [gammaLevels]. *)
Definition same_regime_fields (a b : OpenGamma) : Prop :=
  currentRegime a = currentRegime b
  /\ previousRegime a = previousRegime b
  /\ regimeCode a = regimeCode b
  /\ lastUpdate a = lastUpdate b
  /\ indexPrice a = indexPrice b
  /\ indexSymbol a = indexSymbol b
  /\ lastClosePrice a = lastClosePrice b
  /\ ChartControl a = ChartControl b
  /\ Dispatcher a = Dispatcher b.

(** Number of occurrences of [c] in [s]. *)
Fixpoint count (c : ascii) (s : string) : Z :=
  match s with
  | EmptyString => 0
  | String d s' => (if (d =? c)%char then 1 else 0) + count c s'
  end.

(** A text in which no closing bracket matches the opening one: every
    non-empty prefix has fewer [']'] than ['[']. *)
Definition unclosed (rest : string) : Prop :=
  forall n : nat,
    (0 < n <= String.length rest)%nat ->
    count "]" (take n rest) < count "[" (take n rest).

(** The selected levels array of a line is unterminated: the key is there,
    a ['['] follows it, and nothing closes that bracket. *)
Definition unterminated_array (indexSymbol json : string) : Prop :=
  exists arrStart : Z,
    0 <= IndexOf json (quoted (levelsKey indexSymbol))
    /\ IndexOfChar json "[" (IndexOf json (quoted (levelsKey indexSymbol)))
       = Ok arrStart
    /\ 0 <= arrStart
    /\ unclosed (from arrStart json).

(** A decision procedure for [unclosed]: the bracket depth, started at
    [depth], stays above zero after every character. *)
Fixpoint stays_open (rest : string) (depth : Z) : bool :=
  match rest with
  | EmptyString => true
  | String c rest' =>
      let depth' := depth + (if (c =? "[")%char then 1 else 0)
                          - (if (c =? "]")%char then 1 else 0) in
      (0 <? depth') && stays_open rest' depth'
  end.

(** A text without braces, and an array content in the producer's layout:
    objects with brace-free bodies, separated by brace-free texts. *)
Definition brace_free (s : string) : bool :=
  negb (contains_char "{" s) && negb (contains_char "}" s).

Definition braced (body : string) : string :=
  String "{" (body ++ "}")%string.

Fixpoint flat_array (items : list (string * string)) (tail : string) : string :=
  match items with
  | [] => tail
  | (sep, body) :: items' => (sep ++ braced body ++ flat_array items' tail)%string
  end.

(** ** Shapes of well-formed text *)

(** Every character of [s] passes [test]. *)
Fixpoint all_chars (test : ascii -> bool) (s : string) : bool :=
  match s with
  | EmptyString => true
  | String c s' => test c && all_chars test s'
  end.

(** A scan with [test] stops at the start of [rest]: the text has ended or
    its first character fails the test. *)
Definition stops (test : ascii -> bool) (rest : string) : bool :=
  match rest with
  | EmptyString => true
  | String c _ => negb (test c)
  end.

(** The loop test of the bare-value scan of [ExtractJsonValue]. *)
Definition bare_body (c : ascii) : bool :=
  negb (c =? ",")%char && negb (c =? "}")%char.

Definition bracket_free (s : string) : bool :=
  negb (contains_char "[" s) && negb (contains_char "]" s).

(** ** The rest of the indicator: affinity, the socket loop, the schedule *)

(** [char.ToUpper] on the Latin-1 range.  The two letters whose upper case
    lies outside the range (U+00B5, U+00FF) are left as they are; the tests
    below only look for ASCII capitals, which every culture maps alike. *)
Definition ToUpperChar (c : ascii) : ascii :=
  let n := code c in
  if ((97 <=? n) && (n <=? 122)
      || (224 <=? n) && (n <=? 254) && negb (n =? 247))%N
  then ascii_of_N (n - 32) else c.

(** [s.ToUpper()] *)
Fixpoint ToUpper (s : string) : string :=
  match s with
  | EmptyString => EmptyString
  | String c s' => String (ToUpperChar c) (ToUpper s')
  end.

(** [s.Contains(value)] *)
Definition Contains (s value : string) : bool := 0 <=? IndexOf s value.

(** The index symbol [OnStateChange] derives in [State.DataLoaded] from
    [Instrument.MasterInstrument.Name]. *)
Definition affinity (instrumentName : string) : string :=
  let instr := ToUpper instrumentName in
  if Contains instr "NQ" || Contains instr "MNQ" then "NDX"%string
  else if Contains instr "ES" || Contains instr "MES" then "SPX"%string
  else EmptyString.

(** [string.IsNullOrEmpty(s)] for a non-null [s] *)
Definition IsNullOrEmpty (s : string) : bool :=
  match s with
  | EmptyString => true
  | String _ _ => false
  end.

(** What [reader.ReadLine()] hands to the inner loop of [ClientLoop]: a
    line, [null] at the end of the stream, or an exception. *)
Inductive ReadLine_result : Set :=
| Line (line : string)
| EndOfStream
| ReadFailed.

(** One turn of the inner loop: the value of [isRunning] at the loop test,
    the wall clock, and the outcome of the read. *)
Record iteration : Set := mkIteration {
  running : bool;
  clock : string;
  read : ReadLine_result
}.

(** One turn of the outer loop: the value of [isRunning] at the loop test,
    and the turns of the inner loop when [Connect] succeeds ([None] when it
    throws). *)
Record attempt : Set := mkAttempt {
  started : bool;
  connection : option (list iteration)
}.

(** What happens to the indicator, one critical section at a time: the
    socket thread reads a line, the UI thread runs the oldest posted item, or
    the host calls [OnBarUpdate].  [ParseRegimeUpdate] posts its item just
    after leaving its lock; the UI thread only takes items from the front of
    the queue and never reads its tail, so taking the lock section and the
    posting as one event loses no interleaving. *)
Inductive event : Set :=
| Receive (now line : string)
| RunPosted
| BarUpdate (CurrentBar : Z) (close0 : float).

Definition is_Receive (e : event) : bool :=
  match e with
  | Receive _ _ => true
  | _ => false
  end.

Section Host.

Variable double_TryParse : string -> option float.
Variable int_TryParse : string -> option Z.

(** The body of the inner loop of [ClientLoop] for a line read. *)
Definition ClientLoop_line (now line : string) : M unit :=
  if negb (IsNullOrEmpty line)
  then ParseRegimeUpdate double_TryParse int_TryParse now line
  else ret tt.

(** The inner [while (isRunning)] of [ClientLoop] on one connection. *)
Fixpoint read_loop (turns : list iteration) : M unit :=
  match turns with
  | [] => ret tt
  | turn :: turns' =>
      if running turn then
        match read turn with
        | Line line => ClientLoop_line (clock turn) line ;;; read_loop turns'
        | EndOfStream => ret tt
        | ReadFailed => ret tt
        end
      else ret tt
  end.

(** [ClientLoop()]: connect, read until the stream ends or fails, retry. *)
Fixpoint ClientLoop (attempts : list attempt) : M unit :=
  match attempts with
  | [] => ret tt
  | a :: attempts' =>
      if started a then
        match connection a with
        | Some turns => read_loop turns
        | None => ret tt
        end ;;;
        ClientLoop attempts'
      else ret tt
  end.

(** The UI thread takes the oldest posted item, if any, and runs it. *)
Definition run_posted : M unit :=
  jobs <~ gets Dispatcher ;;
  match jobs with
  | [] => ret tt
  | job :: jobs' =>
      modify (set_Dispatcher jobs') ;;;
      DispatcherJob double_TryParse job
  end.

Definition step (e : event) : M unit :=
  match e with
  | Receive now line => ClientLoop_line now line
  | RunPosted => run_posted
  | BarUpdate CurrentBar close0 => OnBarUpdate CurrentBar close0
  end.

(** A schedule: any interleaving of the two threads. *)
Fixpoint run (schedule : list event) : M unit :=
  match schedule with
  | [] => ret tt
  | e :: schedule' => step e ;;; run schedule'
  end.

(** Lines applied one after the other, each through the whole pipeline. *)
Fixpoint ApplyLines (lines : list (string * string)) : M unit :=
  match lines with
  | [] => ret tt
  | (now, line) :: lines' =>
      ApplyLine double_TryParse int_TryParse now line ;;; ApplyLines lines'
  end.

(** The fields after one event. *)
Definition after_event (e : event) (st : OpenGamma) : OpenGamma :=
  match e with
  | Receive now line =>
      if negb (IsNullOrEmpty line)
      then after_regime_block double_TryParse int_TryParse now line st
      else st
  | RunPosted =>
      match Dispatcher st with
      | [] => st
      | job :: jobs' => after_job double_TryParse job (set_Dispatcher jobs' st)
      end
  | BarUpdate CurrentBar close0 =>
      if CurrentBar >? 0 then set_lastClosePrice close0 st else st
  end.

End Host.

(** The turns of a connection on which every read yields a line. *)
Definition reading (lines : list (string * string)) : list iteration :=
  map (fun l => mkIteration true (fst l) (Line (snd l))) lines.

(** A running attempt whose [Connect] throws. *)
Definition refused (a : attempt) : Prop :=
  started a = true /\ connection a = None.

(** A stored level agrees with a spread: its strike is above zero, its
    adjusted price is the strike less the spread, and its flag is the sign
    of its exposure. *)
Definition level_consistent (spread : float) (level : GammaLevel) : Prop :=
  PrimFloat.ltb 0%float (Strike level) = true
  /\ FuturesPrice level = PrimFloat.sub (Strike level) spread
  /\ IsResistance level = PrimFloat.ltb 0%float (Gex level).

Definition levels_consistent (st : OpenGamma) : Prop :=
  Forall (level_consistent (spread st)) (gammaLevels st).

(** An event that delivers no usable price sample: anything but a bar
    update past the first bar with a close above zero. *)
Definition no_sample (e : event) : Prop :=
  match e with
  | BarUpdate CurrentBar close0 =>
      CurrentBar <= 0 \/ PrimFloat.ltb 0%float close0 = false
  | _ => True
  end.

(** Further sample lines and inputs. *)

(** A levels array with a closing brace that nothing opened. *)
Definition line_stray : string :=
  String "{" (quoted "gamma_levels_spx" ++ ":[}{" ++
              quoted "strike" ++ ":100," ++ quoted "gex" ++ ":5000}]}").

(** An object whose strike is not a number. *)
Definition object_null_strike : string :=
  String "{" (quoted "strike" ++ ":null," ++ quoted "gex" ++ ":7}").

Definition body_100 : string :=
  (quoted "strike" ++ ":100," ++ quoted "gex" ++ ":5000")%string.

Definition body_110 : string :=
  (quoted "strike" ++ ":110," ++ quoted "gex" ++ ":-3000")%string.

(** The text of [line_grind] before its levels key. *)
Definition grind_head : string :=
  String "{" (quoted "regime" ++ ":" ++ quoted "GRIND UP" ++ "," ++
              quoted "regime_code" ++ ": 1 ," ++
              quoted "spot_spx" ++ ":5000.5,").

(** The text of [line_grind] before its regime code. *)
Definition grind_to_code : string :=
  String "{" (quoted "regime" ++ ":" ++ quoted "GRIND UP" ++ ",").

(** The text of [line_grind] after its regime code. *)
Definition grind_after_code : string :=
  ("," ++ quoted "spot_spx" ++ ":5000.5," ++
   quoted "gamma_levels_spx" ++ ":[{" ++ body_100 ++ "},{" ++ body_110 ++ "}]}")%string.

(** The text of [line_grind] after its label. *)
Definition grind_after_label : string :=
  ("," ++ quoted "regime_code" ++ ": 1 ," ++
   quoted "spot_spx" ++ ":5000.5," ++
   quoted "gamma_levels_spx" ++ ":[{" ++ body_100 ++ "},{" ++ body_110 ++ "}]}")%string.

(** A chart on an instrument with no affinity, with a sampled price. *)
Definition plain_state : OpenGamma :=
  mkOpenGamma "WAITING" "---" 0 EmptyString 0%float 0%float 0%float
              EmptyString 4998.25%float [] true [].

Definition sample_schedule : list event :=
  [ Receive "09:30:00" line_no_spot;
    BarUpdate 5 4998.25%float;
    Receive "09:30:05" line_grind;
    RunPosted;
    RunPosted ].

(** A schedule whose only bar update is the first bar. *)
Definition early_schedule : list event :=
  [ BarUpdate 0 4998.25%float;
    Receive "09:30:05" line_grind;
    RunPosted ].

(** * Properties *)

(** ** Strings and indices *)

Module StringFacts.

Lemma Length_nonneg (s : string) : 0 <= Length s.
Proof. unfold Length. lia. Qed.

Lemma Length_String (c : ascii) (s : string) :
  Length (String c s) = Length s + 1.
Proof. unfold Length. cbn [String.length]. lia. Qed.

Lemma Length_Empty : Length EmptyString = 0.
Proof. reflexivity. Qed.

Lemma Length_append (a b : string) :
  Length (a ++ b) = Length a + Length b.
Proof.
  induction a as [|c a IH]; cbn [append].
  - rewrite Length_Empty. lia.
  - rewrite !Length_String, IH. lia.
Qed.

Lemma append_empty_r (s : string) : (s ++ EmptyString)%string = s.
Proof. induction s as [|c s IH]; cbn [append]; congruence. Qed.

Lemma append_assoc (a b c : string) :
  (a ++ (b ++ c))%string = ((a ++ b) ++ c)%string.
Proof. induction a as [|d a IH]; cbn [append]; congruence. Qed.

Lemma from_zero (s : string) : from 0 s = s.
Proof. reflexivity. Qed.

Lemma from_step (c : ascii) (s : string) (i : Z) :
  0 <= i -> from (i + 1) (String c s) = from i s.
Proof.
  intros Hi. unfold from.
  replace (Z.to_nat (i + 1)) with (S (Z.to_nat i)) by lia.
  reflexivity.
Qed.

Lemma from_neg (s : string) (i : Z) : i <= 0 -> from i s = s.
Proof.
  intros Hi. unfold from. replace (Z.to_nat i) with 0%nat by lia. reflexivity.
Qed.

Lemma drop_Empty (n : nat) : drop n EmptyString = EmptyString.
Proof. destruct n; reflexivity. Qed.

Lemma take_drop (n : nat) (s : string) : (take n s ++ drop n s)%string = s.
Proof.
  revert s. induction n as [|n IH]; intros [|c s]; cbn; try reflexivity.
  now rewrite IH.
Qed.

Lemma length_take (n : nat) (s : string) :
  (n <= String.length s)%nat -> String.length (take n s) = n.
Proof.
  revert s. induction n as [|n IH]; intros [|c s] H; cbn in *; try lia.
  rewrite IH; lia.
Qed.

Lemma length_drop (n : nat) (s : string) :
  String.length (drop n s) = (String.length s - n)%nat.
Proof.
  revert s. induction n as [|n IH]; intros [|c s]; cbn; try lia.
  apply IH.
Qed.

Lemma Length_from (i : Z) (s : string) :
  0 <= i <= Length s -> Length (from i s) = Length s - i.
Proof.
  intros H. unfold from, Length in *. rewrite length_drop. lia.
Qed.

Lemma from_end (i : Z) (s : string) : Length s <= i -> from i s = EmptyString.
Proof.
  intros H. unfold from, Length in *.
  assert (Hl : String.length (drop (Z.to_nat i) s) = 0%nat)
    by (rewrite length_drop; lia).
  destruct (drop (Z.to_nat i) s); [reflexivity | discriminate].
Qed.

Lemma drop_drop (n m : nat) (s : string) : drop n (drop m s) = drop (m + n) s.
Proof.
  revert s. induction m as [|m IH]; intros s; cbn.
  - reflexivity.
  - destruct s; [apply drop_Empty | apply IH].
Qed.

Lemma from_from (i j : Z) (s : string) :
  0 <= i -> 0 <= j -> from j (from i s) = from (i + j) s.
Proof.
  intros Hi Hj. unfold from. rewrite drop_drop. f_equal. lia.
Qed.

Lemma drop_append (a b : string) : drop (String.length a) (a ++ b) = b.
Proof. induction a as [|c a IH]; cbn; auto. Qed.

Lemma from_append (a b : string) : from (Length a) (a ++ b) = b.
Proof.
  unfold from, Length. rewrite Nat2Z.id. apply drop_append.
Qed.

Lemma take_append (a b : string) : take (String.length a) (a ++ b) = a.
Proof. induction a as [|c a IH]; cbn; congruence. Qed.

(** A suffix that is not empty starts with the character at its index. *)
Lemma from_cons (i : Z) (s : string) :
  0 <= i < Length s ->
  exists c, from i s = String c (from (i + 1) s)
            /\ String.get (Z.to_nat i) s = Some c.
Proof.
  intros [Hi Hl]. unfold from, Length in *.
  replace (Z.to_nat (i + 1)) with (S (Z.to_nat i)) by lia.
  assert (Hn : (Z.to_nat i < String.length s)%nat) by lia.
  clear Hi Hl. revert s Hn.
  induction (Z.to_nat i) as [|n IH]; intros [|c s] Hn; cbn in *; try lia.
  - exists c. now destruct s.
  - apply IH. lia.
Qed.

Lemma CharAt_from (i : Z) (s : string) :
  0 <= i < Length s ->
  exists c, CharAt s i = Ok c /\ from i s = String c (from (i + 1) s).
Proof.
  intros H. destruct (from_cons i s H) as (c & Hf & Hg).
  exists c. split; [|exact Hf].
  unfold CharAt.
  replace ((i <? 0) || (Length s <=? i)) with false
    by (symmetry; apply orb_false_iff; split; [apply Z.ltb_ge | apply Z.leb_gt]; lia).
  now rewrite Hg.
Qed.

Lemma Substring_ok (s : string) (i n : Z) :
  0 <= i -> 0 <= n -> i + n <= Length s ->
  Substring s i n = Ok (take (Z.to_nat n) (from i s)).
Proof.
  intros Hi Hn Hl. unfold Substring.
  replace ((i <? 0) || (n <? 0) || (Length s <? i + n)) with false; [reflexivity|].
  symmetry. rewrite !orb_false_iff, !Z.ltb_ge. lia.
Qed.

Lemma IndexOfChar_ok (s : string) (c : ascii) (i : Z) :
  0 <= i <= Length s ->
  IndexOfChar s c i = Ok (find_from (String c EmptyString) (from i s) i).
Proof.
  intros H. unfold IndexOfChar.
  replace ((i <? 0) || (Length s <? i)) with false; [reflexivity|].
  symmetry. rewrite orb_false_iff, !Z.ltb_ge. lia.
Qed.

Lemma WhileIndex_ok (test : ascii -> bool) (s : string) (i : Z) :
  0 <= i -> WhileIndex test s i = Ok (scan_while test (from i s) i).
Proof.
  intros H. unfold WhileIndex.
  replace (i <? 0) with false by (symmetry; apply Z.ltb_ge; lia). reflexivity.
Qed.

Lemma scan_while_bounds (test : ascii -> bool) (rest : string) (i : Z) :
  i <= scan_while test rest i <= i + Length rest.
Proof.
  revert i. induction rest as [|c rest IH]; intros i; cbn [scan_while].
  - rewrite Length_Empty. lia.
  - rewrite Length_String. destruct (test c).
    + specialize (IH (i + 1)). lia.
    + pose proof (Length_nonneg rest). lia.
Qed.

(** Where the loop stops, the test fails or the text has ended. *)
Lemma scan_while_stop (test : ascii -> bool) (rest : string) (i : Z) :
  match from (scan_while test rest i - i) rest with
  | EmptyString => True
  | String c _ => test c = false
  end.
Proof.
  revert i. induction rest as [|c rest IH]; intros i; cbn [scan_while].
  - now rewrite from_end by (rewrite Length_Empty; lia).
  - destruct (test c) eqn:Ht.
    + pose proof (scan_while_bounds test rest (i + 1)).
      specialize (IH (i + 1)).
      replace (scan_while test rest (i + 1) - i)
        with ((scan_while test rest (i + 1) - (i + 1)) + 1) by lia.
      rewrite from_step by lia. exact IH.
    + replace (i - i) with 0 by lia. rewrite from_zero. exact Ht.
Qed.

Lemma prefix_iff (value s : string) :
  String.prefix value s = true <-> exists post, s = (value ++ post)%string.
Proof.
  revert s. induction value as [|c value IH]; intros s.
  - split; [intros _; now exists s | now destruct s].
  - destruct s as [|d s]; cbn [String.prefix append].
    + split; [discriminate | intros [post H]; discriminate].
    + destruct (ascii_dec c d) as [->|Hne].
      * rewrite IH. split; intros [post H]; exists post; congruence.
      * split; [discriminate | intros [post H]; congruence].
Qed.

Lemma find_from_spec (value rest : string) (i : Z) :
  0 <= i ->
  (find_from value rest i = -1 /\ ~ occurs value rest)
  \/ (i <= find_from value rest i
      /\ exists pre post, rest = (pre ++ value ++ post)%string
                          /\ Length pre = find_from value rest i - i).
Proof.
  revert i. induction rest as [|c rest IH]; intros i Hi; cbn [find_from].
  - destruct (String.prefix value EmptyString) eqn:Hp.
    + right. split; [lia|]. apply prefix_iff in Hp. destruct Hp as [post Hp].
      exists EmptyString, post. split; [exact Hp | rewrite Length_Empty; lia].
    + left. split; [reflexivity|]. intros (pre & post & H).
      destruct pre; [|discriminate]. cbn in H.
      assert (Hq : String.prefix value EmptyString = true)
        by (apply prefix_iff; now exists post).
      congruence.
  - destruct (String.prefix value (String c rest)) eqn:Hp.
    + right. split; [lia|]. apply prefix_iff in Hp. destruct Hp as [post Hp].
      exists EmptyString, post. split; [exact Hp | rewrite Length_Empty; lia].
    + destruct (IH (i + 1) ltac:(lia)) as [[Hr Hno] | [Hr (pre & post & He & Hl)]].
      * left. split; [exact Hr|]. intros (pre & post & H).
        destruct pre as [|d pre]; cbn in H.
        -- assert (Hq : String.prefix value (String c rest) = true)
             by (apply prefix_iff; now exists post).
           congruence.
        -- apply Hno. exists pre, post. congruence.
      * right. split; [lia|]. exists (String c pre), post. split.
        -- cbn. now rewrite <- He.
        -- rewrite Length_String. lia.
Qed.

Lemma find_from_range (value rest : string) (i : Z) :
  0 <= i ->
  find_from value rest i = -1
  \/ (i <= find_from value rest i
      /\ find_from value rest i + Length value <= i + Length rest).
Proof.
  intros Hi. destruct (find_from_spec value rest i Hi)
    as [[Hr _] | [Hr (pre & post & He & Hl)]]; [now left | right].
  split; [exact Hr|].
  apply (f_equal Length) in He. rewrite !Length_append in He.
  pose proof (Length_nonneg post). lia.
Qed.

Lemma IndexOf_absent (s value : string) :
  IndexOf s value < 0 <-> ~ occurs value s.
Proof.
  unfold IndexOf.
  destruct (find_from_spec value s 0 ltac:(lia))
    as [[Hr Hno] | [Hr (pre & post & He & Hl)]].
  - rewrite Hr. split; [intros _; exact Hno | lia].
  - split; [lia | intros Hno; exfalso; apply Hno; now exists pre, post].
Qed.

Lemma IndexOf_range (s value : string) :
  IndexOf s value = -1
  \/ (0 <= IndexOf s value /\ IndexOf s value + Length value <= Length s).
Proof.
  unfold IndexOf. destruct (find_from_range value s 0 ltac:(lia)); [now left|right; lia].
Qed.

End StringFacts.

Import StringFacts.

(** ** The scalar extractor never throws *)

Lemma scan_while_span (test : ascii -> bool) (rest : string) (i : Z) :
  take (Z.to_nat (scan_while test rest i - i)) rest = span test rest.
Proof.
  revert i. induction rest as [|c rest IH]; intros i; cbn [scan_while span].
  - now destruct (Z.to_nat (i - i)).
  - destruct (test c).
    + pose proof (scan_while_bounds test rest (i + 1)).
      replace (Z.to_nat (scan_while test rest (i + 1) - i))
        with (S (Z.to_nat (scan_while test rest (i + 1) - (i + 1)))) by lia.
      cbn [take]. now rewrite IH.
    + now replace (i - i) with 0 by lia.
Qed.

Lemma scan_while_TrimStart (rest : string) (i : Z) :
  from (scan_while IsWhiteSpace rest i - i) rest = TrimStart rest.
Proof.
  revert i. induction rest as [|c rest IH]; intros i; cbn [scan_while TrimStart].
  - apply from_end. rewrite Length_Empty. lia.
  - destruct (IsWhiteSpace c).
    + pose proof (scan_while_bounds IsWhiteSpace rest (i + 1)).
      replace (scan_while IsWhiteSpace rest (i + 1) - i)
        with ((scan_while IsWhiteSpace rest (i + 1) - (i + 1)) + 1) by lia.
      rewrite from_step by lia. apply IH.
    + replace (i - i) with 0 by lia. apply from_zero.
Qed.

Lemma find_char_spec (c : ascii) (rest : string) (i : Z) :
  let r := find_from (String c EmptyString) rest i in
  if contains_char c rest
  then i <= r /\ r < i + Length rest
       /\ take (Z.to_nat (r - i)) rest = span (fun d => negb (c =? d)%char) rest
  else r = -1.
Proof.
  revert i. induction rest as [|d rest IH]; intros i; cbn [find_from String.prefix contains_char span].
  - reflexivity.
  - destruct (ascii_dec c d) as [->|Hne].
    + rewrite Ascii.eqb_refl. cbn [orb negb].
      replace (String.prefix EmptyString rest) with true by now destruct rest.
      rewrite Length_String. pose proof (Length_nonneg rest).
      replace (i - i) with 0 by lia. repeat split; lia.
    + apply Ascii.eqb_neq in Hne. rewrite Hne. cbn [orb negb].
      specialize (IH (i + 1)). cbn zeta in IH.
      destruct (contains_char c rest).
      * destruct IH as (H1 & H2 & H3). rewrite Length_String.
        repeat split; try lia.
        replace (Z.to_nat (find_from (String c EmptyString) rest (i + 1) - i))
          with (S (Z.to_nat (find_from (String c EmptyString) rest (i + 1) - (i + 1))))
          by lia.
        cbn [take]. now rewrite H3.
      * exact IH.
Qed.

(** [ExtractJsonValue] returns normally on every line and key, with the
    scalar of the value text when the key pattern occurs. *)
Lemma ExtractJsonValue_spec (json key : string) :
  ExtractJsonValue json key =
  Ok (if IndexOf json (key_pattern key) <? 0 then None
      else scalar_of (value_text json key)).
Proof.
  unfold ExtractJsonValue, value_text. fold (key_pattern key).
  set (pattern := key_pattern key).
  destruct (IndexOf_range json pattern) as [Hno | [Hlo Hhi]].
  { rewrite Hno. reflexivity. }
  replace (IndexOf json pattern <? 0) with false by (symmetry; apply Z.ltb_ge; lia).
  set (start := IndexOf json pattern + Length pattern) in *.
  pose proof (Length_nonneg pattern) as Hp.
  assert (Hs : 0 <= start <= Length json) by (unfold start; lia).
  rewrite WhileIndex_ok by lia. cbn [rbind].
  pose proof (scan_while_bounds IsWhiteSpace (from start json) start) as Hb.
  rewrite Length_from in Hb by lia.
  set (j := scan_while IsWhiteSpace (from start json) start) in *.
  assert (Hj : from j json = TrimStart (from start json)).
  { rewrite <- (scan_while_TrimStart (from start json) start). fold j.
    rewrite from_from by lia. f_equal. lia. }
  rewrite <- Hj.
  destruct (j >=? Length json) eqn:Hend.
  { rewrite from_end by lia. reflexivity. }
  assert (Hjl : 0 <= j < Length json) by lia.
  destruct (CharAt_from j json Hjl) as (c & Hc & Hf).
  rewrite Hc, Hf. cbn [rbind scalar_of].
  destruct (c =? dquote)%char.
  - rewrite IndexOfChar_ok by lia. cbn [rbind].
    pose proof (find_char_spec dquote (from (j + 1) json) (j + 1)) as Hq.
    cbn zeta in Hq. rewrite Length_from in Hq by lia.
    destruct (contains_char dquote (from (j + 1) json)).
    + destruct Hq as (H1 & H2 & H3).
      set (e := find_from (String dquote EmptyString) (from (j + 1) json) (j + 1)) in *.
      replace (e <? 0) with false by (symmetry; apply Z.ltb_ge; lia).
      rewrite Substring_ok by lia. cbn [rbind].
      replace (e - j - 1) with (e - (j + 1)) by lia. now rewrite H3.
    + rewrite Hq. reflexivity.
  - rewrite WhileIndex_ok by lia. cbn [rbind]. rewrite Hf.
    set (test := fun c0 : ascii => negb (c0 =? ",")%char && negb (c0 =? "}")%char).
    pose proof (scan_while_bounds test (String c (from (j + 1) json)) j) as He.
    assert (Hlen : Length (String c (from (j + 1) json)) = Length json - j)
      by (rewrite <- Hf; apply Length_from; lia).
    rewrite Hlen in He.
    rewrite Substring_ok by lia. cbn [rbind].
    rewrite Hf, scan_while_span. reflexivity.
Qed.

(** ** Fields *)

Lemma set_gammaLevels_same (st : OpenGamma) :
  set_gammaLevels (gammaLevels st) st = st.
Proof. now destruct st. Qed.

Lemma set_gammaLevels_twice (a b : list GammaLevel) (st : OpenGamma) :
  set_gammaLevels a (set_gammaLevels b st) = set_gammaLevels a st.
Proof. reflexivity. Qed.

Lemma adjusted_levels_app (spread : float) (a b : list (float * float)) :
  adjusted_levels spread (a ++ b) =
  adjusted_levels spread a ++ adjusted_levels spread b.
Proof. unfold adjusted_levels. now rewrite filter_app, map_app. Qed.

Ltac fields :=
  cbn [currentRegime previousRegime regimeCode lastUpdate indexPrice
       futuresPrice spread indexSymbol lastClosePrice gammaLevels ChartControl
       Dispatcher set_currentRegime set_previousRegime set_regimeCode
       set_lastUpdate set_indexPrice set_futuresPrice set_spread
       set_lastClosePrice set_gammaLevels set_Dispatcher].

Ltac fields_in H :=
  cbn [currentRegime previousRegime regimeCode lastUpdate indexPrice
       futuresPrice spread indexSymbol lastClosePrice gammaLevels ChartControl
       Dispatcher set_currentRegime set_previousRegime set_regimeCode
       set_lastUpdate set_indexPrice set_futuresPrice set_spread
       set_lastClosePrice set_gammaLevels set_Dispatcher] in H.

Ltac run_monad :=
  unfold InvokeAsync, Print, ForceRefresh; unfold bind, gets, modify, lift, ret, try_catch;
  cbn beta iota zeta.

(** ** Bracket and brace scanning *)

Lemma find_arr_end_unclosed (rest : string) :
  forall i bracketCount : Z,
    (forall n : nat,
        (0 < n <= String.length rest)%nat ->
        count "]" (take n rest) < bracketCount + count "[" (take n rest)) ->
    find_arr_end rest i bracketCount = -1.
Proof.
  induction rest as [|c rest IH]; intros i d H; cbn [find_arr_end].
  - reflexivity.
  - destruct (Ascii.eqb_spec c "[") as [-> | Hopen].
    { apply IH. intros n Hn.
      specialize (H (S n) ltac:(cbn [String.length]; lia)).
      cbn [take count] in H. cbn [Ascii.eqb Bool.eqb] in H. lia. }
    destruct (Ascii.eqb_spec c "]") as [-> | Hclose].
    + pose proof (H 1%nat ltac:(cbn [String.length]; lia)) as H1.
      cbn [take count Ascii.eqb Bool.eqb] in H1.
      replace (d - 1 =? 0) with false by (symmetry; apply Z.eqb_neq; lia).
      apply IH. intros n Hn.
      specialize (H (S n) ltac:(cbn [String.length]; lia)).
      cbn [take count Ascii.eqb Bool.eqb] in H. lia.
    + apply IH. intros n Hn.
      specialize (H (S n) ltac:(cbn [String.length]; lia)).
      cbn [take count] in H.
      apply Ascii.eqb_neq in Hopen, Hclose. rewrite Hopen, Hclose in H. lia.
Qed.

(** [unclosed] is exactly the condition under which the bracket scan of
    [ParseGammaLevels] finds no [arrEnd]. *)
Lemma find_arr_end_none (rest : string) :
  forall (i bracketCount : Z) (n : nat),
    0 <= i -> 1 <= bracketCount ->
    find_arr_end rest i bracketCount = -1 ->
    (0 < n <= String.length rest)%nat ->
    count "]" (take n rest) < bracketCount + count "[" (take n rest).
Proof.
  induction rest as [|c rest IH]; intros i d n Hi Hd Hnone Hn;
    cbn [String.length] in Hn; [lia|].
  cbn [find_arr_end] in Hnone.
  destruct n as [|n]; [lia|]. cbn [take count].
  assert (Hrest : forall d', 1 <= d' -> find_arr_end rest (i + 1) d' = -1 ->
                    count "]" (take n rest) < d' + count "[" (take n rest) \/ n = 0%nat).
  { intros d' Hd' Hnone'. destruct n as [|n]; [now right | left].
    apply (IH (i + 1) d' (S n)); solve [lia | exact Hnone']. }
  assert (Hzero : n = 0%nat -> count "]" (take n rest) = 0 /\ count "[" (take n rest) = 0)
    by (intros ->; split; reflexivity).
  destruct (Ascii.eqb_spec c "[") as [-> | Hopen].
  { cbn [Ascii.eqb Bool.eqb].
    destruct (Hrest (d + 1) ltac:(lia) Hnone) as [H | H];
      try (destruct (Hzero H)); lia. }
  destruct (Ascii.eqb_spec c "]") as [-> | Hclose].
  - destruct (d - 1 =? 0) eqn:Hone; [lia|]. apply Z.eqb_neq in Hone.
    destruct (Hrest (d - 1) ltac:(lia) Hnone) as [H | H];
      try (destruct (Hzero H)); lia.
  - destruct (Hrest d Hd Hnone) as [H | H]; try (destruct (Hzero H)); lia.
Qed.

Lemma unclosed_iff_no_arr_end (post : string) (i : Z) :
  0 <= i ->
  find_arr_end (String "[" post) i 0 = -1 <-> unclosed (String "[" post).
Proof.
  intros Hi. split.
  - intros Hnone n Hn.
    change (find_arr_end (String "[" post) i 0)
      with (find_arr_end post (i + 1) 1) in Hnone.
    cbn [String.length] in Hn. destruct n as [|n]; [lia|].
    cbn [take count Ascii.eqb Bool.eqb].
    destruct n as [|n]; [cbn [take count]; lia|].
    pose proof (find_arr_end_none post (i + 1) 1 (S n) ltac:(lia) ltac:(lia)
                  Hnone ltac:(lia)).
    lia.
  - intros Hun. apply find_arr_end_unclosed. intros n Hn.
    specialize (Hun n Hn). lia.
Qed.

(** Characters other than braces leave the object loop where it is. *)
Lemma objects_in_skip (arrContent text rest : string) :
  forall i braceCount currentStart : Z,
    brace_free text = true ->
    objects_in arrContent (text ++ rest) i braceCount currentStart
    = objects_in arrContent rest (i + Length text) braceCount currentStart.
Proof.
  induction text as [|c text IH]; intros i bc cs Hfree; cbn [append].
  - rewrite Length_Empty. f_equal. lia.
  - unfold brace_free in Hfree. cbn [contains_char] in Hfree.
    apply andb_true_iff in Hfree. destruct Hfree as [Ho Hc].
    apply negb_true_iff, orb_false_iff in Ho, Hc.
    destruct Ho as [Ho Ho'], Hc as [Hc Hc'].
    cbn [objects_in].
    rewrite (Ascii.eqb_sym c "{"), Ho, (Ascii.eqb_sym c "}"), Hc.
    rewrite IH by (unfold brace_free; now rewrite Ho', Hc').
    rewrite Length_String. f_equal. lia.
Qed.

(** On an array content in the producer's layout the object loop cuts out
    exactly the objects, in order. *)
Lemma objects_in_flat (items : list (string * string)) (tail : string) :
  forall done : string,
    Forall (fun item => brace_free (fst item) = true
                        /\ brace_free (snd item) = true) items ->
    brace_free tail = true ->
    objects_in (done ++ flat_array items tail) (flat_array items tail)
               (Length done) 0 (-1)
    = map (fun item => braced (snd item)) items.
Proof.
  induction items as [|[sep body] items IH]; intros done Hitems Htail;
    cbn [flat_array map].
  - rewrite <- (append_empty_r tail) at 2.
    rewrite objects_in_skip by exact Htail. reflexivity.
  - inversion Hitems as [|item items' [Hsep Hbody] Hrest]; subst.
    cbn [fst snd] in *.
    rewrite objects_in_skip by exact Hsep.
    unfold braced at 2. cbn [append objects_in Ascii.eqb Bool.eqb]. cbn [Z.eqb].
    rewrite <- append_assoc, objects_in_skip by exact Hbody.
    cbn [append objects_in Ascii.eqb Bool.eqb].
    pose proof (Length_nonneg done) as Hd. pose proof (Length_nonneg sep) as Hs.
    pose proof (Length_nonneg body) as Hb.
    replace (0 + 1 - 1 =? 0) with true by reflexivity.
    replace (Length done + Length sep >=? 0) with true
      by (symmetry; apply Z.geb_le; lia).
    cbn [andb]. f_equal.
    + set (start := Length done + Length sep).
      set (stop := start + 1 + Length body).
      assert (Hfrom : from start (done ++ sep ++ braced body ++ flat_array items tail)
                      = (braced body ++ flat_array items tail)%string).
      { unfold start. rewrite <- Length_append, append_assoc. apply from_append. }
      rewrite Hfrom.
      replace (Z.to_nat (stop - start + 1)) with (String.length (braced body)).
      * apply take_append.
      * unfold stop, braced, Length. cbn [String.length].
        rewrite <- (Nat2Z.id (String.length (body ++ "}"))).
        pose proof (Length_append body "}") as Hl. unfold Length in Hl.
        cbn [String.length] in Hl. lia.
    + specialize (IH (done ++ sep ++ braced body)%string Hrest Htail).
      rewrite <- !append_assoc in IH.
      replace (Length done + Length sep + 1 + Length body + 1)
        with (Length (done ++ sep ++ braced body)).
      * replace (0 + 1 - 1) with 0 by lia. exact IH.
      * rewrite !Length_append. unfold braced.
        rewrite Length_String, Length_append. change (Length "}") with 1. lia.
Qed.

(** ** The level decoder *)

Section Decoder.

Variable double_TryParse : string -> option float.

Lemma Length_quoted (key : string) : Length (quoted key) = Length key + 2.
Proof.
  unfold quoted. rewrite Length_String, Length_append, Length_String, Length_Empty.
  lia.
Qed.

(** [ExtractNum] returns normally on every text and key. *)
Lemma ExtractNum_returns (json key : string) :
  exists v, ExtractNum double_TryParse json key = Ok v.
Proof.
  unfold ExtractNum.
  destruct (IndexOf_range json (quoted key)) as [Hno | [Hlo Hhi]].
  { rewrite Hno. now exists 0%float. }
  replace (IndexOf json (quoted key) <? 0) with false
    by (symmetry; apply Z.ltb_ge; lia).
  rewrite Length_quoted in Hhi. pose proof (Length_nonneg key) as Hk.
  set (valStart := IndexOf json (quoted key) + Length key + 3) in *.
  rewrite WhileIndex_ok by lia. cbn [rbind].
  pose proof (scan_while_bounds (fun c => negb (numeric_start c))
                (from valStart json) valStart) as Hb.
  set (j := scan_while _ (from valStart json) valStart) in *.
  destruct (j >=? Length json) eqn:Hend; [now exists 0%float|].
  assert (Hj : 0 <= j < Length json) by lia.
  rewrite WhileIndex_ok by lia. cbn [rbind].
  pose proof (scan_while_bounds numeric_body (from j json) j) as He.
  rewrite Length_from in He by lia.
  rewrite Substring_ok by lia. cbn [rbind].
  destruct (double_TryParse _); eauto.
Qed.

Lemma ExtractNum_value (json key : string) :
  ExtractNum double_TryParse json key = Ok (value_or 0%float (ExtractNum double_TryParse json key)).
Proof.
  destruct (ExtractNum_returns json key) as [v Hv]. now rewrite Hv.
Qed.

(** One object: the record is appended when its strike is positive, and the
    handler of the [try] is never reached. *)
Lemma ParseGammaLevelObject_run (objJson : string) (st : OpenGamma) :
  ParseGammaLevelObject double_TryParse objJson st =
  (Ok tt,
   set_gammaLevels
     (gammaLevels st
      ++ adjusted_levels (spread st) [raw_level double_TryParse objJson]) st).
Proof.
  unfold ParseGammaLevelObject, raw_level, adjusted_levels, strike_positive.
  run_monad.
  rewrite (ExtractNum_value objJson "strike"), (ExtractNum_value objJson "gex").
  cbn [value_or filter fst snd].
  destruct (PrimFloat.ltb 0 (value_or 0%float (ExtractNum double_TryParse objJson "strike"))).
  - reflexivity.
  - cbn [map]. now rewrite app_nil_r, set_gammaLevels_same.
Qed.

(** The object loop appends the adjusted records of the objects it cuts
    out, and every [Substring] it performs is in range. *)
Lemma object_loop_run (arrContent rest : string) :
  forall (i braceCount currentStart : Z) (st : OpenGamma),
    0 <= i -> i + Length rest = Length arrContent -> currentStart < i ->
    object_loop double_TryParse arrContent rest i braceCount currentStart st =
    (Ok tt,
     set_gammaLevels
       (gammaLevels st
        ++ adjusted_levels (spread st)
             (map (raw_level double_TryParse)
                  (objects_in arrContent rest i braceCount currentStart))) st).
Proof.
  induction rest as [|c rest IH]; intros i bc cs st Hi Hlen Hcs;
    cbn [object_loop objects_in].
  - run_monad. cbn [map]. unfold adjusted_levels. cbn [filter map].
    now rewrite app_nil_r, set_gammaLevels_same.
  - rewrite Length_String in Hlen. pose proof (Length_nonneg rest) as Hr.
    destruct (c =? "{")%char.
    { apply IH; try lia. destruct (bc =? 0); lia. }
    destruct (c =? "}")%char; [|apply IH; lia].
    destruct ((bc - 1 =? 0) && (cs >=? 0)) eqn:Hclose; [|apply IH; lia].
    apply andb_true_iff in Hclose. destruct Hclose as [_ Hge].
    run_monad. rewrite Substring_ok by lia.
    rewrite ParseGammaLevelObject_run.
    rewrite IH by lia. rewrite set_gammaLevels_twice.
    cbn [map gammaLevels spread set_gammaLevels].
    rewrite <- app_assoc, <- adjusted_levels_app. reflexivity.
Qed.

Lemma find_arr_end_range (rest : string) :
  forall i bracketCount : Z,
    0 <= i ->
    find_arr_end rest i bracketCount = -1
    \/ (i <= find_arr_end rest i bracketCount
        /\ find_arr_end rest i bracketCount < i + Length rest).
Proof.
  induction rest as [|c rest IH]; intros i d Hi; cbn [find_arr_end].
  - now left.
  - rewrite Length_String. pose proof (Length_nonneg rest) as Hr.
    destruct (c =? "[")%char.
    { destruct (IH (i + 1) (d + 1) ltac:(lia)); [now left | right; lia]. }
    destruct (c =? "]")%char.
    + destruct (d - 1 =? 0); [right; lia|].
      destruct (IH (i + 1) (d - 1) ltac:(lia)); [now left | right; lia].
    + destruct (IH (i + 1) d ltac:(lia)); [now left | right; lia].
Qed.

(** Where a search succeeds, the text from that index on starts with the
    value searched for. *)
Lemma find_from_hit (value rest : string) (i : Z) :
  0 <= i -> 0 <= find_from value rest i ->
  exists post, from (find_from value rest i - i) rest = (value ++ post)%string.
Proof.
  intros Hi Hr.
  destruct (find_from_spec value rest i Hi) as [[Hno _] | [_ (pre & post & He & Hl)]];
    [lia|].
  exists post. rewrite <- Hl, He. apply from_append.
Qed.

Lemma bracket_after_opening (json : string) (arrStart : Z) (post : string) :
  0 <= arrStart < Length json ->
  from arrStart json = String "[" post ->
  find_arr_end (from arrStart json) arrStart 0 = -1
  \/ (arrStart + 1 <= find_arr_end (from arrStart json) arrStart 0
      /\ find_arr_end (from arrStart json) arrStart 0 < Length json).
Proof.
  intros Hs Hf.
  assert (Hl : Length post = Length json - arrStart - 1).
  { pose proof (Length_from arrStart json ltac:(lia)) as H.
    rewrite Hf, Length_String in H. lia. }
  rewrite Hf.
  change (find_arr_end (String "[" post) arrStart 0)
    with (find_arr_end post (arrStart + 1) 1).
  destruct (find_arr_end_range post (arrStart + 1) 1 ltac:(lia)) as [H|H];
    [now left | right; lia].
Qed.

(** [ParseGammaLevels] returns normally on every line and leaves exactly the
    adjusted raw levels of that line in [gammaLevels]. *)
Lemma ParseGammaLevels_run (json : string) (st : OpenGamma) :
  ParseGammaLevels double_TryParse json st =
  (Ok tt,
   set_gammaLevels
     (adjusted_levels (spread st)
        (raw_levels double_TryParse (indexSymbol st) json)) st).
Proof.
  unfold ParseGammaLevels, raw_levels, array_content. run_monad.
  set (key := quoted (levelsKey (indexSymbol st))).
  destruct (IndexOf_range json key) as [Hno | [Hlo Hhi]].
  { rewrite Hno. reflexivity. }
  pose proof (Length_nonneg key) as Hk.
  replace (IndexOf json key <? 0) with false by (symmetry; apply Z.ltb_ge; lia).
  set (keyIdx := IndexOf json key) in *.
  rewrite IndexOfChar_ok by lia.
  pose proof (find_from_range "[" (from keyIdx json) keyIdx Hlo) as Hb.
  rewrite Length_from in Hb by lia.
  destruct Hb as [Hb | [Hb1 Hb2]]; [rewrite Hb; reflexivity|].
  assert (Hpos : 0 <= find_from "[" (from keyIdx json) keyIdx) by lia.
  destruct (find_from_hit "[" (from keyIdx json) keyIdx Hlo Hpos) as [post Hpost].
  set (arrStart := find_from "[" (from keyIdx json) keyIdx) in *.
  change (Length "[") with 1 in Hb2.
  rewrite from_from in Hpost by lia.
  replace (keyIdx + (arrStart - keyIdx)) with arrStart in Hpost by lia.
  replace (arrStart <? 0) with false by (symmetry; apply Z.ltb_ge; lia).
  destruct (bracket_after_opening json arrStart post ltac:(lia) Hpost)
    as [He | [He1 He2]]; [rewrite He; reflexivity|].
  set (arrEnd := find_arr_end (from arrStart json) arrStart 0) in *.
  replace (arrEnd <? 0) with false by (symmetry; apply Z.ltb_ge; lia).
  rewrite Substring_ok by lia.
  set (arrContent := take (Z.to_nat (arrEnd - arrStart - 1)) (from (arrStart + 1) json)).
  destruct (IsNullOrWhiteSpace arrContent); [reflexivity|].
  rewrite object_loop_run by lia. reflexivity.
Qed.

Lemma raw_levels_key_absent (indexSymbol json : string) :
  ~ occurs (quoted (levelsKey indexSymbol)) json ->
  raw_levels double_TryParse indexSymbol json = [].
Proof.
  intros H. apply IndexOf_absent in H. unfold raw_levels, array_content.
  replace (IndexOf json (quoted (levelsKey indexSymbol)) <? 0) with true
    by (symmetry; apply Z.ltb_lt; lia).
  reflexivity.
Qed.

Lemma raw_levels_unterminated (indexSymbol json : string) :
  unterminated_array indexSymbol json ->
  raw_levels double_TryParse indexSymbol json = [].
Proof.
  intros (arrStart & Hkey & Hopen & Hstart & Hun).
  unfold raw_levels, array_content.
  set (keyIdx := IndexOf json (quoted (levelsKey indexSymbol))) in *.
  replace (keyIdx <? 0) with false by (symmetry; apply Z.ltb_ge; lia).
  assert (Hk : 0 <= keyIdx <= Length json).
  { destruct (IndexOf_range json (quoted (levelsKey indexSymbol))) as [H | H];
      fold keyIdx in H; [lia|].
    pose proof (Length_nonneg (quoted (levelsKey indexSymbol))). lia. }
  rewrite IndexOfChar_ok in Hopen by exact Hk. injection Hopen as Hopen.
  rewrite Hopen.
  replace (arrStart <? 0) with false by (symmetry; apply Z.ltb_ge; lia).
  rewrite find_arr_end_unclosed; [reflexivity|].
  intros n Hn. specialize (Hun n Hn). lia.
Qed.

Lemma adjusted_levels_none (spread : float) (raws : list (float * float)) :
  Forall (fun raw => PrimFloat.ltb 0%float (fst raw) = false) raws ->
  adjusted_levels spread raws = [].
Proof.
  intros H. unfold adjusted_levels.
  replace (filter strike_positive raws) with (@nil (float * float)); [reflexivity|].
  symmetry. induction H as [|raw raws Hraw _ IH]; cbn [filter].
  - reflexivity.
  - unfold strike_positive at 1. now rewrite Hraw.
Qed.

Lemma exec_ParseGammaLevels (json : string) (st : OpenGamma) :
  exec (ParseGammaLevels double_TryParse json) st =
  set_gammaLevels
    (adjusted_levels (spread st)
       (raw_levels double_TryParse (indexSymbol st) json)) st.
Proof. unfold exec. now rewrite ParseGammaLevels_run. Qed.

(** C1: on every line and for every spread, [ParseGammaLevels] returns
    normally and stores exactly the raw decoded records of the line whose
    strike is above zero, in their order, each with
    [FuturesPrice = Strike - spread] and [IsResistance = (Gex > 0)]; no other
    field changes and the list stored before has no influence.  With spread 2
    the raw list [(100, 5000); (110, -3000)] gives the levels 98
    (resistance) and 108 (support). *)
Theorem gamma_levels_recomputed (json : string) (st : OpenGamma) :
  ParseGammaLevels double_TryParse json st =
  (Ok tt,
   set_gammaLevels
     (map (fun raw =>
             {| Strike := fst raw;
                Gex := snd raw;
                FuturesPrice := PrimFloat.sub (fst raw) (spread st);
                IsResistance := PrimFloat.ltb 0%float (snd raw) |})
          (filter (fun raw => PrimFloat.ltb 0%float (fst raw))
                  (raw_levels double_TryParse (indexSymbol st) json))) st)
  /\ (forall prior : list GammaLevel,
        gammaLevels (exec (ParseGammaLevels double_TryParse json)
                          (set_gammaLevels prior st))
        = gammaLevels (exec (ParseGammaLevels double_TryParse json) st))
  /\ (spread st = 2%float ->
      raw_levels double_TryParse (indexSymbol st) json
      = [(100%float, 5000%float); (110%float, (-3000)%float)] ->
      gammaLevels (exec (ParseGammaLevels double_TryParse json) st)
      = [ {| Strike := 100%float; Gex := 5000%float;
             FuturesPrice := 98%float; IsResistance := true |};
          {| Strike := 110%float; Gex := (-3000)%float;
             FuturesPrice := 108%float; IsResistance := false |} ]).
Proof.
  split; [|split].
  - rewrite ParseGammaLevels_run. reflexivity.
  - intros prior. rewrite !exec_ParseGammaLevels. reflexivity.
  - intros Hspread Hraw. rewrite exec_ParseGammaLevels, Hspread, Hraw.
    reflexivity.
Qed.

(** C10: [ParseGammaLevels] clears the stored list before it looks at the
    line, so the list it leaves never depends on the one stored before; it
    ends empty when the selected key is absent, when the array is
    unterminated, and when no raw record has a strike above zero. *)
Theorem level_list_emptied_first (json : string) (st : OpenGamma) :
  fst (ParseGammaLevels double_TryParse json st) = Ok tt
  /\ (forall prior : list GammaLevel,
        gammaLevels (exec (ParseGammaLevels double_TryParse json)
                          (set_gammaLevels prior st))
        = gammaLevels (exec (ParseGammaLevels double_TryParse json)
                            (set_gammaLevels [] st)))
  /\ (~ occurs (quoted (levelsKey (indexSymbol st))) json
      \/ unterminated_array (indexSymbol st) json
      \/ Forall (fun raw => PrimFloat.ltb 0%float (fst raw) = false)
                (raw_levels double_TryParse (indexSymbol st) json) ->
      gammaLevels (exec (ParseGammaLevels double_TryParse json) st) = []).
Proof.
  split; [|split].
  - now rewrite ParseGammaLevels_run.
  - intros prior. rewrite !exec_ParseGammaLevels. reflexivity.
  - intros H. rewrite exec_ParseGammaLevels. fields.
    destruct H as [H | [H | H]].
    + now rewrite raw_levels_key_absent.
    + now rewrite raw_levels_unterminated.
    + now apply adjusted_levels_none.
Qed.

End Decoder.

(** ** The update pipeline *)

Lemma ExtractJsonValue_field (json key : string) :
  ExtractJsonValue json key = Ok (field json key).
Proof. unfold field. now rewrite ExtractJsonValue_spec. Qed.

Section Pipeline.

Variable double_TryParse : string -> option float.
Variable int_TryParse : string -> option Z.

(** [ParseRegimeUpdate] returns through its [try] body on every line. *)
Lemma ParseRegimeUpdate_run (now json : string) (st : OpenGamma) :
  ParseRegimeUpdate double_TryParse int_TryParse now json st =
  (Ok tt, after_regime_block double_TryParse int_TryParse now json st).
Proof.
  unfold ParseRegimeUpdate, after_regime_block, label_of. run_monad.
  rewrite !ExtractJsonValue_field. cbn beta iota.
  destruct st as [cur prev rc upd ip fp sp sym lcp gl chart posted]. fields.
  destruct (negb (cur =? "WAITING")%string && negb (cur =? _)%string); fields;
    destruct (sym =? "NDX")%string; try destruct (sym =? "SPX")%string; fields;
    destruct chart; reflexivity.
Qed.

(** A posted item returns through its [try] body on every line. *)
Lemma DispatcherJob_run (jsonCopy : string) (st : OpenGamma) :
  DispatcherJob double_TryParse jsonCopy st =
  (Ok tt, after_job double_TryParse jsonCopy st).
Proof.
  unfold DispatcherJob, after_job, spread_after_job. run_monad.
  destruct (PrimFloat.ltb 0 (lastClosePrice st)) eqn:Hclose; [|reflexivity].
  cbn [indexPrice set_futuresPrice futuresPrice].
  destruct (PrimFloat.ltb 0 (indexPrice st)); cbn beta iota;
    rewrite ParseGammaLevels_run; reflexivity.
Qed.

Lemma run_jobs_run (jobs : list string) :
  forall st : OpenGamma,
    run_jobs double_TryParse jobs st =
    (Ok tt, fold_left (fun fields job => after_job double_TryParse job fields) jobs st).
Proof.
  induction jobs as [|job jobs IH]; intros st; cbn [run_jobs fold_left].
  - reflexivity.
  - unfold bind. rewrite DispatcherJob_run. apply IH.
Qed.

(** A line through the whole pipeline never raises. *)
Lemma ApplyLine_run (now json : string) (st : OpenGamma) :
  ApplyLine double_TryParse int_TryParse now json st =
  (Ok tt, after_line double_TryParse int_TryParse now json st).
Proof.
  unfold ApplyLine, DrainDispatcher, after_line. unfold bind at 1.
  rewrite ParseRegimeUpdate_run. run_monad. apply run_jobs_run.
Qed.

(** A posted item writes [futuresPrice], [spread] and [gammaLevels] only. *)
Lemma after_job_frame (job : string) (st : OpenGamma) :
  same_regime_fields (after_job double_TryParse job st) st.
Proof.
  unfold after_job, same_regime_fields.
  destruct (PrimFloat.ltb 0 (lastClosePrice st)); fields; repeat split.
Qed.

Lemma jobs_frame (jobs : list string) :
  forall st : OpenGamma,
    same_regime_fields
      (fold_left (fun fields job => after_job double_TryParse job fields) jobs st) st.
Proof.
  induction jobs as [|job jobs IH]; intros st; cbn [fold_left].
  - unfold same_regime_fields. repeat split.
  - specialize (IH (after_job double_TryParse job st)).
    pose proof (after_job_frame job st) as Hj.
    unfold same_regime_fields in *.
    repeat match goal with H : _ /\ _ |- _ => destruct H end.
    repeat split; congruence.
Qed.

(** Without a known instrument price the posted items write nothing. *)
Lemma jobs_idle (jobs : list string) :
  forall st : OpenGamma,
    PrimFloat.ltb 0%float (lastClosePrice st) = false ->
    fold_left (fun fields job => after_job double_TryParse job fields) jobs st = st.
Proof.
  induction jobs as [|job jobs IH]; intros st Hclose; cbn [fold_left].
  - reflexivity.
  - assert (Hj : after_job double_TryParse job st = st)
      by (unfold after_job; now rewrite Hclose).
    rewrite Hj. now apply IH.
Qed.

(** The last posted item decides the three fields the items write. *)
Lemma jobs_last (jobs : list string) (job : string) (st : OpenGamma) :
  fold_left (fun fields job => after_job double_TryParse job fields)
            (jobs ++ [job]) st =
  after_job double_TryParse job
    (fold_left (fun fields job => after_job double_TryParse job fields) jobs st).
Proof. now rewrite fold_left_app. Qed.

Lemma jobs_spread_kept (jobs : list string) :
  forall st : OpenGamma,
    PrimFloat.ltb 0%float (indexPrice st) = false ->
    spread (fold_left (fun fields job => after_job double_TryParse job fields) jobs st)
    = spread st.
Proof.
  induction jobs as [|job jobs IH]; intros st Hidx; cbn [fold_left].
  - reflexivity.
  - pose proof (after_job_frame job st) as (_ & _ & _ & _ & Hi & _).
    rewrite IH by (now rewrite Hi).
    unfold after_job, spread_after_job. rewrite Hidx.
    destruct (PrimFloat.ltb 0 (lastClosePrice st)); reflexivity.
Qed.

(** The whole pipeline leaves the regime fields as [ParseRegimeUpdate] set
    them. *)
Lemma after_line_frame (now json : string) (st : OpenGamma) :
  let a := after_line double_TryParse int_TryParse now json st in
  let b := after_regime_block double_TryParse int_TryParse now json st in
  currentRegime a = currentRegime b
  /\ previousRegime a = previousRegime b
  /\ regimeCode a = regimeCode b
  /\ lastUpdate a = lastUpdate b
  /\ indexPrice a = indexPrice b
  /\ indexSymbol a = indexSymbol b
  /\ lastClosePrice a = lastClosePrice b
  /\ ChartControl a = ChartControl b.
Proof.
  cbn zeta. unfold after_line.
  set (b := after_regime_block double_TryParse int_TryParse now json st).
  pose proof (jobs_frame (Dispatcher b) (set_Dispatcher [] b)) as H.
  unfold same_regime_fields in H. revert H. fields. intros H.
  repeat match goal with H : _ /\ _ |- _ => destruct H end.
  repeat split; assumption.
Qed.

Lemma exec_ParseRegimeUpdate (now json : string) (st : OpenGamma) :
  exec (ParseRegimeUpdate double_TryParse int_TryParse now json) st =
  after_regime_block double_TryParse int_TryParse now json st.
Proof. unfold exec. now rewrite ParseRegimeUpdate_run. Qed.

Lemma exec_ApplyLine (now json : string) (st : OpenGamma) :
  exec (ApplyLine double_TryParse int_TryParse now json) st =
  after_line double_TryParse int_TryParse now json st.
Proof. unfold exec. now rewrite ApplyLine_run. Qed.

Lemma exec_DispatcherJob (job : string) (st : OpenGamma) :
  exec (DispatcherJob double_TryParse job) st = after_job double_TryParse job st.
Proof. unfold exec. now rewrite DispatcherJob_run. Qed.

(** With a chart, the line just decoded is the last item the UI thread
    runs. *)
Lemma after_line_last (now json : string) (st : OpenGamma) :
  ChartControl st = true ->
  exists before : OpenGamma,
    after_line double_TryParse int_TryParse now json st
    = after_job double_TryParse json before
    /\ same_regime_fields before
         (set_Dispatcher [] (after_regime_block double_TryParse int_TryParse now json st)).
Proof.
  intros Hchart. unfold after_line.
  set (b := after_regime_block double_TryParse int_TryParse now json st).
  assert (Hq : Dispatcher b = Dispatcher st ++ [json])
    by (unfold b, after_regime_block; fields; now rewrite Hchart).
  rewrite Hq, jobs_last.
  eexists. split; [reflexivity | apply jobs_frame].
Qed.

(** C2: when the regime field of a line decodes to [X], then after the line
    is applied (after [ParseRegimeUpdate] alone as well as after the whole
    pipeline) the current label is [X]; the previous label has become the
    prior current label when that label was neither ["WAITING"] nor [X], and
    is untouched otherwise; it never becomes ["WAITING"]. *)
Theorem regime_label_shift (now json X : string) (st st' : OpenGamma) :
  ExtractJsonValue json "regime" = Ok (Some X) ->
  st' = exec (ParseRegimeUpdate double_TryParse int_TryParse now json) st
  \/ st' = exec (ApplyLine double_TryParse int_TryParse now json) st ->
  currentRegime st' = X
  /\ (currentRegime st <> "WAITING"%string -> currentRegime st <> X ->
      previousRegime st' = currentRegime st)
  /\ (currentRegime st = "WAITING"%string \/ currentRegime st = X ->
      previousRegime st' = previousRegime st)
  /\ (previousRegime st <> "WAITING"%string ->
      previousRegime st' <> "WAITING"%string).
Proof.
  intros HX Hst'.
  assert (Hlabel : label_of json = X)
    by (unfold label_of, field; now rewrite HX).
  assert (Hcur : currentRegime st' = X
                 /\ previousRegime st' =
                    if negb (currentRegime st =? "WAITING")%string
                       && negb (currentRegime st =? X)%string
                    then currentRegime st else previousRegime st).
  { destruct Hst' as [-> | ->].
    - rewrite exec_ParseRegimeUpdate. unfold after_regime_block. fields.
      now rewrite Hlabel.
    - rewrite exec_ApplyLine.
      destruct (after_line_frame now json st) as (Hc & Hp & _).
      rewrite Hc, Hp. unfold after_regime_block. fields. now rewrite Hlabel. }
  destruct Hcur as [Hc Hp]. rewrite Hp. split; [exact Hc|].
  destruct (String.eqb_spec (currentRegime st) "WAITING") as [Hw | Hw];
    destruct (String.eqb_spec (currentRegime st) X) as [Hx | Hx];
    cbn [negb andb]; repeat split; intros; try tauto; try congruence.
Qed.

(** C6: applying the same line twice through the pipeline leaves the previous
    label after the second application equal to the one after the first. *)
Theorem resubmission_keeps_previous (now1 now2 json : string) (st : OpenGamma) :
  previousRegime
    (exec (ApplyLine double_TryParse int_TryParse now2 json)
       (exec (ApplyLine double_TryParse int_TryParse now1 json) st))
  = previousRegime (exec (ApplyLine double_TryParse int_TryParse now1 json) st).
Proof.
  rewrite !exec_ApplyLine.
  set (once := after_line double_TryParse int_TryParse now1 json st).
  destruct (after_line_frame now2 json once) as (_ & Hp & _). rewrite Hp.
  assert (Hc : currentRegime once = label_of json).
  { destruct (after_line_frame now1 json st) as (Hc & _). exact Hc. }
  unfold after_regime_block. fields.
  rewrite Hc, String.eqb_refl. cbn [negb]. now rewrite andb_false_r.
Qed.

(** C3: when a posted item runs with both the index price and the sampled
    instrument price above zero, the spread it leaves is
    [Math.Round(indexPrice) - Math.Round(price)], each value rounded before
    the subtraction; through the whole pipeline, with a chart, the index
    price is the one [ParseRegimeUpdate] stored.  With index price 15000.6
    and instrument price 15002.1 the spread is 15001 - 15002 = -1. *)
Theorem spread_is_rounded_difference (now json : string) (st : OpenGamma) :
  (PrimFloat.ltb 0%float (indexPrice st) = true ->
   PrimFloat.ltb 0%float (lastClosePrice st) = true ->
   spread (exec (DispatcherJob double_TryParse json) st)
   = PrimFloat.sub (Math_Round (indexPrice st)) (Math_Round (lastClosePrice st)))
  /\ (ChartControl st = true ->
      let posted := exec (ParseRegimeUpdate double_TryParse int_TryParse now json) st in
      PrimFloat.ltb 0%float (indexPrice posted) = true ->
      PrimFloat.ltb 0%float (lastClosePrice st) = true ->
      spread (exec (ApplyLine double_TryParse int_TryParse now json) st)
      = PrimFloat.sub (Math_Round (indexPrice posted)) (Math_Round (lastClosePrice st)))
  /\ (indexPrice st = 15000.6%float -> lastClosePrice st = 15002.1%float ->
      spread (exec (DispatcherJob double_TryParse json) st) = (-1)%float).
Proof.
  assert (Hjob : forall s : OpenGamma,
             PrimFloat.ltb 0%float (indexPrice s) = true ->
             PrimFloat.ltb 0%float (lastClosePrice s) = true ->
             spread (after_job double_TryParse json s)
             = PrimFloat.sub (Math_Round (indexPrice s)) (Math_Round (lastClosePrice s))).
  { intros s Hi Hc. unfold after_job, spread_after_job. rewrite Hc, Hi. reflexivity. }
  split; [|split].
  - intros Hi Hc. rewrite exec_DispatcherJob. now apply Hjob.
  - intros Hchart posted Hi Hc. subst posted.
    rewrite exec_ParseRegimeUpdate in *. rewrite exec_ApplyLine.
    destruct (after_line_last now json st Hchart) as (before & -> & Hsame).
    unfold same_regime_fields in Hsame. revert Hsame. fields.
    intros (_ & _ & _ & _ & Hip & _ & Hlc & _).
    assert (Hlc' : lastClosePrice before = lastClosePrice st)
      by (rewrite Hlc; reflexivity).
    rewrite Hjob by congruence. congruence.
  - intros Hi Hc. rewrite exec_DispatcherJob, Hjob.
    + rewrite Hi, Hc. reflexivity.
    + rewrite Hi. reflexivity.
    + rewrite Hc. reflexivity.
Qed.

(** C4: [ParseRegimeUpdate] itself never writes the spread or the instrument
    price.  In the work it posts, the instrument price is overwritten only by
    a sampled price above zero, and the spread is recomputed only when the
    sampled price and the index price are both above zero; otherwise the
    prior values stay. *)
Theorem spread_and_instrument_guards (now json : string) (st : OpenGamma) :
  let posted := exec (ParseRegimeUpdate double_TryParse int_TryParse now json) st in
  let st' := exec (ApplyLine double_TryParse int_TryParse now json) st in
  (spread posted = spread st /\ futuresPrice posted = futuresPrice st)
  /\ (PrimFloat.ltb 0%float (lastClosePrice st) = false ->
      futuresPrice st' = futuresPrice st /\ spread st' = spread st)
  /\ (PrimFloat.ltb 0%float (indexPrice posted) = false ->
      spread st' = spread st)
  /\ (ChartControl st = true ->
      PrimFloat.ltb 0%float (lastClosePrice st) = true ->
      futuresPrice st' = lastClosePrice st)
  /\ (forall (job : string) (s : OpenGamma),
        (PrimFloat.ltb 0%float (lastClosePrice s) = false ->
         exec (DispatcherJob double_TryParse job) s = s)
        /\ (PrimFloat.ltb 0%float (indexPrice s) = false ->
            spread (exec (DispatcherJob double_TryParse job) s) = spread s)
        /\ (PrimFloat.ltb 0%float (lastClosePrice s) = true ->
            futuresPrice (exec (DispatcherJob double_TryParse job) s)
            = lastClosePrice s)).
Proof.
  cbn zeta. rewrite exec_ParseRegimeUpdate, exec_ApplyLine.
  set (posted := after_regime_block double_TryParse int_TryParse now json st).
  assert (Hp : spread posted = spread st /\ futuresPrice posted = futuresPrice st
               /\ lastClosePrice posted = lastClosePrice st)
    by (unfold posted, after_regime_block; fields; auto).
  destruct Hp as (Hps & Hpf & Hpl).
  split; [auto|]. split; [|split; [|split]].
  - intros Hclose. unfold after_line. fold posted.
    rewrite jobs_idle by (fields; now rewrite Hpl). fields. auto.
  - intros Hidx. unfold after_line. fold posted.
    rewrite jobs_spread_kept by (fields; exact Hidx). fields. exact Hps.
  - intros Hchart Hclose.
    destruct (after_line_last now json st Hchart) as (before & -> & Hsame).
    unfold same_regime_fields in Hsame. revert Hsame. fields.
    intros (_ & _ & _ & _ & _ & _ & Hlc & _).
    unfold after_job. fold posted in Hlc. rewrite Hlc, Hpl, Hclose. fields.
    reflexivity.
  - intros job s. rewrite !exec_DispatcherJob. unfold after_job, spread_after_job.
    repeat split.
    + intros ->. reflexivity.
    + intros ->. destruct (PrimFloat.ltb 0 (lastClosePrice s)); reflexivity.
    + intros ->. reflexivity.
Qed.

(** C5, as the code has it: under NDX or SPX affinity every applied line
    overwrites the index price with the [out] value of parsing the selected
    spot field, which is the parsed value whatever its sign and [0] when the
    field is absent or does not parse; without affinity the index price is
    left as it was. *)
Theorem index_price_overwritten (now json : string) (st : OpenGamma) :
  let st' := exec (ApplyLine double_TryParse int_TryParse now json) st in
  (indexSymbol st = "NDX"%string ->
   indexPrice st' = double_out double_TryParse (field json "spot_ndx"))
  /\ (indexSymbol st = "SPX"%string ->
      indexPrice st' = double_out double_TryParse (field json "spot_spx"))
  /\ (indexSymbol st <> "NDX"%string -> indexSymbol st <> "SPX"%string ->
      indexPrice st' = indexPrice st)
  /\ double_out double_TryParse None = 0%float
  /\ (forall text v, double_TryParse text = Some v ->
        double_out double_TryParse (Some text) = v)
  /\ (forall text, double_TryParse text = None ->
        double_out double_TryParse (Some text) = 0%float).
Proof.
  cbn zeta. rewrite exec_ApplyLine.
  destruct (after_line_frame now json st) as (_ & _ & _ & _ & Hi & _).
  rewrite Hi. unfold after_regime_block. fields.
  split; [|split; [|split; [|split; [|split]]]].
  - intros ->. reflexivity.
  - intros ->. reflexivity.
  - intros Hn Hs.
    destruct (String.eqb_spec (indexSymbol st) "NDX"); [contradiction|].
    destruct (String.eqb_spec (indexSymbol st) "SPX"); [contradiction|].
    reflexivity.
  - reflexivity.
  - intros text v H. cbn [double_out]. now rewrite H.
  - intros text H. cbn [double_out]. now rewrite H.
Qed.

(** C9: with a null chart control, [ParseRegimeUpdate] still writes the
    current label, the previous label, the regime code, the timestamp and
    the index price as for any line, posts nothing, and leaves the
    instrument price, the spread and the level list as they were; with
    nothing pending, the pipeline ends in that same state. *)
Theorem null_chart_skips_price_and_levels (now json : string) (st : OpenGamma) :
  ChartControl st = false ->
  let st' := exec (ParseRegimeUpdate double_TryParse int_TryParse now json) st in
  (currentRegime st' = label_of json
   /\ previousRegime st' =
      (if negb (currentRegime st =? "WAITING")%string
          && negb (currentRegime st =? label_of json)%string
       then currentRegime st else previousRegime st)
   /\ regimeCode st' = int_out int_TryParse (field json "regime_code")
   /\ lastUpdate st' = now
   /\ indexPrice st' =
      (if (indexSymbol st =? "NDX")%string
       then double_out double_TryParse (field json "spot_ndx")
       else if (indexSymbol st =? "SPX")%string
       then double_out double_TryParse (field json "spot_spx")
       else indexPrice st))
  /\ (futuresPrice st' = futuresPrice st
      /\ spread st' = spread st
      /\ gammaLevels st' = gammaLevels st
      /\ Dispatcher st' = Dispatcher st)
  /\ (Dispatcher st = [] ->
      exec (ApplyLine double_TryParse int_TryParse now json) st = st').
Proof.
  intros Hchart. cbn zeta. rewrite exec_ParseRegimeUpdate, exec_ApplyLine.
  unfold after_line, after_regime_block. fields. rewrite Hchart.
  split; [repeat split|]. split; [repeat split|].
  intros ->. cbn [fold_left]. reflexivity.
Qed.

End Pipeline.

(** ** Tolerance of the decoder *)

Section Robustness.

Variable double_TryParse : string -> option float.
Variable int_TryParse : string -> option Z.

Lemma scalar_of_none (text : string) :
  scalar_of text = None <->
  text = EmptyString
  \/ exists rest, text = String dquote rest /\ contains_char dquote rest = false.
Proof.
  destruct text as [|c rest]; cbn [scalar_of].
  - split; [now left | reflexivity].
  - destruct (Ascii.eqb_spec c dquote) as [-> | Hc].
    + destruct (contains_char dquote rest) eqn:Hq.
      * split; [discriminate|].
        intros [H | (rest' & H & Hn)]; [discriminate|].
        injection H as <-. congruence.
      * split; [|reflexivity]. intros _. right. now exists rest.
    + split; [discriminate|].
      intros [H | (rest' & H & _)]; [discriminate | congruence].
Qed.

(** C7: when the selected levels array of a line is unterminated,
    [ParseGammaLevels] returns normally with an empty level list, and the
    pipeline returns normally with the label, the code, the timestamp and the
    index price taken from the line as usual; with a chart and a sampled
    price above zero it stores that price, recomputes the spread and leaves
    the level list empty. *)
Theorem unterminated_array_yields_no_levels (now json : string) (st : OpenGamma) :
  unterminated_array (indexSymbol st) json ->
  ParseGammaLevels double_TryParse json st = (Ok tt, set_gammaLevels [] st)
  /\ fst (ApplyLine double_TryParse int_TryParse now json st) = Ok tt
  /\ (let st' := exec (ApplyLine double_TryParse int_TryParse now json) st in
      currentRegime st' = label_of json
      /\ regimeCode st' = int_out int_TryParse (field json "regime_code")
      /\ lastUpdate st' = now
      /\ indexPrice st' =
         (if (indexSymbol st =? "NDX")%string
          then double_out double_TryParse (field json "spot_ndx")
          else if (indexSymbol st =? "SPX")%string
          then double_out double_TryParse (field json "spot_spx")
          else indexPrice st)
      /\ (ChartControl st = true ->
          PrimFloat.ltb 0%float (lastClosePrice st) = true ->
          gammaLevels st' = []
          /\ futuresPrice st' = lastClosePrice st
          /\ (PrimFloat.ltb 0%float (indexPrice st') = true ->
              spread st' = PrimFloat.sub (Math_Round (indexPrice st'))
                                         (Math_Round (lastClosePrice st))))).
Proof.
  intros Hun. split; [|split].
  - rewrite ParseGammaLevels_run, raw_levels_unterminated by exact Hun.
    reflexivity.
  - now rewrite ApplyLine_run.
  - cbn zeta. rewrite exec_ApplyLine.
    destruct (after_line_frame double_TryParse int_TryParse now json st)
      as (Hc & _ & Hr & Hu & Hi & _).
    rewrite Hc, Hr, Hu, Hi.
    split; [reflexivity|]. split; [reflexivity|]. split; [reflexivity|].
    split; [reflexivity|].
    intros Hchart Hclose.
    destruct (after_line_last double_TryParse int_TryParse now json st Hchart)
      as (before & Heq & Hsame).
    unfold same_regime_fields in Hsame. revert Hsame. fields.
    intros (_ & _ & _ & _ & Hbi & Hbs & Hbl & _).
    assert (Hbl' : lastClosePrice before = lastClosePrice st)
      by (rewrite Hbl; reflexivity).
    assert (Hbs' : indexSymbol before = indexSymbol st)
      by (rewrite Hbs; reflexivity).
    rewrite Heq. unfold after_job, spread_after_job.
    rewrite Hbl', Hclose, Hbs', Hbi. fields.
    rewrite raw_levels_unterminated by exact Hun.
    split; [reflexivity|]. split; [reflexivity|].
    intros ->. reflexivity.
Qed.

(** C8, as the code has it: [ExtractJsonValue] never throws, and it returns
    [null] exactly when the key pattern does not occur in the line, or
    nothing but white space follows its first occurrence, or the value opens
    with a quote that is never closed.  A line without the regime pattern
    therefore sets the current label to ["UNKNOWN"]. *)
Theorem scalar_absent_cases (json : string) :
  (forall key : string,
      ExtractJsonValue json key = Ok None <->
      ~ occurs (key_pattern key) json
      \/ value_text json key = EmptyString
      \/ exists rest, value_text json key = String dquote rest
                      /\ contains_char dquote rest = false)
  /\ (forall (now : string) (st : OpenGamma),
        ~ occurs (key_pattern "regime") json ->
        currentRegime (exec (ApplyLine double_TryParse int_TryParse now json) st)
        = "UNKNOWN"%string).
Proof.
  assert (Habsent : forall key, ~ occurs (key_pattern key) json ->
                                field json key = None).
  { intros key H. apply IndexOf_absent in H. unfold field.
    rewrite ExtractJsonValue_spec.
    replace (IndexOf json (key_pattern key) <? 0) with true
      by (symmetry; apply Z.ltb_lt; lia).
    reflexivity. }
  split.
  - intros key. rewrite ExtractJsonValue_spec.
    destruct (IndexOf json (key_pattern key) <? 0) eqn:Hidx.
    + split; [|reflexivity]. intros _. left.
      apply IndexOf_absent. now apply Z.ltb_lt.
    + split.
      * intros H. right. apply scalar_of_none. congruence.
      * intros [H | H].
        -- apply IndexOf_absent in H. apply Z.ltb_ge in Hidx. lia.
        -- apply scalar_of_none in H. now rewrite H.
  - intros now st H. rewrite exec_ApplyLine.
    destruct (after_line_frame double_TryParse int_TryParse now json st) as (Hc & _).
    rewrite Hc. unfold after_regime_block, label_of. fields.
    now rewrite (Habsent "regime"%string H).
Qed.

End Robustness.

(** ** The properties on sample lines *)

Lemma stays_open_unclosed (rest : string) :
  stays_open rest 0 = true -> unclosed rest.
Proof.
  assert (H : forall (depth : Z) (n : nat),
             stays_open rest depth = true ->
             (0 < n <= String.length rest)%nat ->
             count "]" (take n rest) < depth + count "[" (take n rest)).
  { induction rest as [|c rest IH]; intros depth n Hopen Hn;
      cbn [String.length] in Hn; [lia|].
    cbn [stays_open] in Hopen. apply andb_true_iff in Hopen.
    destruct Hopen as [Hpos Hrest]. apply Z.ltb_lt in Hpos.
    destruct n as [|n]; [lia|]. cbn [take count].
    destruct n as [|n].
    - cbn [take count]. destruct (c =? "[")%char, (c =? "]")%char; lia.
    - specialize (IH _ (S n) Hrest ltac:(lia)).
      destruct (c =? "[")%char, (c =? "]")%char; lia. }
  intros Hopen n Hn. specialize (H 0 n Hopen Hn). lia.
Qed.

Example ExtractJsonValue_quoted :
  ExtractJsonValue line_grind "regime" = Ok (Some "GRIND UP"%string).
Proof. reflexivity. Qed.

Example ExtractJsonValue_bare :
  ExtractJsonValue line_grind "regime_code" = Ok (Some "1"%string).
Proof. reflexivity. Qed.

Example ExtractJsonValue_missing :
  ExtractJsonValue line_grind "spot_ndx" = Ok None.
Proof. reflexivity. Qed.

Example ExtractNum_negative :
  ExtractNum decimal_TryParse
    (String "{" (quoted "strike" ++ ":110," ++ quoted "gex" ++ ":-3000}")) "gex"
  = Ok (-3000)%float.
Proof. reflexivity. Qed.

Example Math_Round_midpoints :
  map Math_Round [0.5%float; 1.5%float; 2.5%float; (-2.5)%float; 15000.6%float]
  = [0%float; 2%float; 2%float; (-2)%float; 15001%float].
Proof. reflexivity. Qed.

Example ApplyLine_line_grind :
  ApplyLine decimal_TryParse integer_TryParse "09:30:00" line_grind spx_state
  = (Ok tt,
     {| currentRegime := "GRIND UP";
        previousRegime := "CHOP";
        regimeCode := 1;
        lastUpdate := "09:30:00";
        indexPrice := 5000.5%float;
        futuresPrice := 4998.25%float;
        spread := 2%float;
        indexSymbol := "SPX";
        lastClosePrice := 4998.25%float;
        gammaLevels :=
          [ {| Strike := 100%float; Gex := 5000%float;
               FuturesPrice := 98%float; IsResistance := true |};
            {| Strike := 110%float; Gex := (-3000)%float;
               FuturesPrice := 108%float; IsResistance := false |} ];
        ChartControl := true;
        Dispatcher := [] |}).
Proof. vm_compute. reflexivity. Qed.

Example objects_in_stray_brace :
  objects_in "}{a}{{b}}" "}{a}{{b}}" 0 0 (-1) = ["{b}"%string].
Proof. reflexivity. Qed.

Lemma gamma_levels_recomputed_witness :
  spread spx_state = 2%float
  /\ raw_levels decimal_TryParse (indexSymbol spx_state) line_grind
     = [(100%float, 5000%float); (110%float, (-3000)%float)]
  /\ gammaLevels (exec (ParseGammaLevels decimal_TryParse line_grind) spx_state)
     = [ {| Strike := 100%float; Gex := 5000%float;
            FuturesPrice := 98%float; IsResistance := true |};
         {| Strike := 110%float; Gex := (-3000)%float;
            FuturesPrice := 108%float; IsResistance := false |} ].
Proof.
  split; [reflexivity|]. split; [vm_compute; reflexivity|].
  apply (proj2 (proj2 (gamma_levels_recomputed decimal_TryParse line_grind spx_state)));
    vm_compute; reflexivity.
Defined.

Lemma regime_label_shift_witness :
  ExtractJsonValue line_grind "regime" = Ok (Some "GRIND UP"%string)
  /\ currentRegime
       (exec (ApplyLine decimal_TryParse integer_TryParse "09:30:00" line_grind)
             spx_state) = "GRIND UP"%string.
Proof.
  split; [vm_compute; reflexivity|].
  apply (regime_label_shift decimal_TryParse integer_TryParse
           "09:30:00" line_grind "GRIND UP" spx_state).
  - vm_compute; reflexivity.
  - right. reflexivity.
Defined.

Lemma spread_is_rounded_difference_witness :
  PrimFloat.ltb 0%float (indexPrice ndx_state) = true
  /\ PrimFloat.ltb 0%float (lastClosePrice ndx_state) = true
  /\ spread (exec (DispatcherJob decimal_TryParse line_no_regime) ndx_state)
     = PrimFloat.sub (Math_Round 15000.6%float) (Math_Round 15002.1%float).
Proof.
  split; [reflexivity|]. split; [reflexivity|].
  apply (proj1 (spread_is_rounded_difference decimal_TryParse integer_TryParse
                  "09:30:00" line_no_regime ndx_state)); reflexivity.
Defined.

Lemma spread_and_instrument_guards_witness :
  ChartControl spx_state = true
  /\ PrimFloat.ltb 0%float (lastClosePrice spx_state) = true
  /\ futuresPrice
       (exec (ApplyLine decimal_TryParse integer_TryParse "09:30:00" line_grind)
             spx_state) = lastClosePrice spx_state.
Proof.
  split; [reflexivity|]. split; [reflexivity|].
  apply (proj1 (proj2 (proj2 (proj2
           (spread_and_instrument_guards decimal_TryParse integer_TryParse
              "09:30:00" line_grind spx_state))))); reflexivity.
Defined.

Lemma index_price_overwritten_witness :
  indexSymbol spx_state = "SPX"%string
  /\ indexPrice
       (exec (ApplyLine decimal_TryParse integer_TryParse "09:30:00" line_grind)
             spx_state)
     = double_out decimal_TryParse (field line_grind "spot_spx").
Proof.
  split; [reflexivity|].
  apply (proj1 (proj2 (index_price_overwritten decimal_TryParse integer_TryParse
                         "09:30:00" line_grind spx_state))); reflexivity.
Defined.

Lemma line_unterminated_is_unterminated :
  unterminated_array (indexSymbol spx_state) line_unterminated.
Proof.
  exists 36. split; [vm_compute; discriminate|].
  split; [vm_compute; reflexivity|]. split; [lia|].
  apply stays_open_unclosed. vm_compute. reflexivity.
Defined.

Lemma unterminated_array_yields_no_levels_witness :
  unterminated_array (indexSymbol spx_state) line_unterminated
  /\ ParseGammaLevels decimal_TryParse line_unterminated spx_state
     = (Ok tt, set_gammaLevels [] spx_state).
Proof.
  split; [exact line_unterminated_is_unterminated|].
  apply (proj1 (unterminated_array_yields_no_levels decimal_TryParse integer_TryParse
                  "09:30:00" line_unterminated spx_state
                  line_unterminated_is_unterminated)).
Defined.

Lemma scalar_absent_cases_witness :
  ~ occurs (key_pattern "regime") line_no_regime
  /\ currentRegime
       (exec (ApplyLine decimal_TryParse integer_TryParse "09:30:00" line_no_regime)
             spx_state) = "UNKNOWN"%string.
Proof.
  assert (H : ~ occurs (key_pattern "regime") line_no_regime)
    by (apply IndexOf_absent; vm_compute; reflexivity).
  split; [exact H|].
  apply (proj2 (scalar_absent_cases decimal_TryParse integer_TryParse line_no_regime)
           "09:30:00"%string spx_state H).
Defined.

Lemma null_chart_skips_price_and_levels_witness :
  ChartControl headless_state = false
  /\ gammaLevels
       (exec (ParseRegimeUpdate decimal_TryParse integer_TryParse "09:30:00" line_grind)
             headless_state) = gammaLevels headless_state.
Proof.
  split; [reflexivity|].
  apply (null_chart_skips_price_and_levels decimal_TryParse integer_TryParse
           "09:30:00" line_grind headless_state). reflexivity.
Defined.

Lemma level_list_emptied_first_witness :
  ~ occurs (quoted (levelsKey (indexSymbol spx_state))) line_no_spot
  /\ gammaLevels spx_state <> []
  /\ gammaLevels (exec (ParseGammaLevels decimal_TryParse line_no_spot) spx_state) = [].
Proof.
  assert (H : ~ occurs (quoted (levelsKey (indexSymbol spx_state))) line_no_spot)
    by (apply IndexOf_absent; vm_compute; reflexivity).
  split; [exact H|]. split; [discriminate|].
  apply (proj2 (proj2 (level_list_emptied_first decimal_TryParse line_no_spot spx_state))).
  left. exact H.
Defined.

(** C5 as the specification words it fails: under NDX affinity a line
    without the spot field resets a known index price to [0]. *)
Lemma index_price_reset_by_absent_field :
  field line_no_spot "spot_ndx" = None
  /\ indexPrice ndx_state = 15000.6%float
  /\ indexPrice
       (exec (ApplyLine decimal_TryParse integer_TryParse "09:30:00" line_no_spot)
             ndx_state) = 0%float
  /\ indexPrice
       (exec (ApplyLine decimal_TryParse integer_TryParse "09:30:00" line_no_spot)
             ndx_state) <> indexPrice ndx_state.
Proof.
  split; [vm_compute; reflexivity|]. split; [reflexivity|].
  split; [vm_compute; reflexivity|].
  intros H. apply (f_equal (PrimFloat.ltb 0%float)) in H.
  vm_compute in H. discriminate H.
Qed.

(** C8 as the specification words it fails: the key pattern occurs in a line
    cut inside the quoted value, and the extractor still returns [null]. *)
Lemma scalar_absent_though_key_occurs :
  ~ (ExtractJsonValue line_cut "regime" = Ok None <->
     ~ occurs (key_pattern "regime") line_cut).
Proof.
  intros [H _]. apply H; [vm_compute; reflexivity|].
  exists "{"%string, (String dquote "GRIND"). reflexivity.
Qed.

(** * Further properties of the decoder *)

Module ScanFacts.

Lemma scan_while_append (test : ascii -> bool) (a b : string) (i : Z) :
  all_chars test a = true -> stops test b = true ->
  scan_while test (a ++ b) i = i + Length a.
Proof.
  revert i. induction a as [|c a IH]; intros i Ha Hb; cbn [append].
  - rewrite Length_Empty. destruct b as [|d b]; cbn [scan_while stops] in *.
    + lia.
    + apply negb_true_iff in Hb. rewrite Hb. lia.
  - cbn [all_chars] in Ha. apply andb_true_iff in Ha. destruct Ha as [Hc Ha].
    cbn [scan_while]. rewrite Hc, IH by assumption. rewrite Length_String. lia.
Qed.

Lemma span_append (test : ascii -> bool) (a b : string) :
  all_chars test a = true -> stops test b = true ->
  span test (a ++ b) = a.
Proof.
  induction a as [|c a IH]; intros Ha Hb; cbn [append].
  - destruct b as [|d b]; cbn [span stops] in *; [reflexivity|].
    apply negb_true_iff in Hb. now rewrite Hb.
  - cbn [all_chars] in Ha. apply andb_true_iff in Ha. destruct Ha as [Hc Ha].
    cbn [span]. now rewrite Hc, IH.
Qed.

Lemma TrimStart_append (ws s : string) :
  IsNullOrWhiteSpace ws = true -> TrimStart (ws ++ s) = TrimStart s.
Proof.
  induction ws as [|c ws IH]; intros H; cbn [append].
  - reflexivity.
  - cbn [IsNullOrWhiteSpace] in H. apply andb_true_iff in H.
    destruct H as [Hc Hws]. cbn [TrimStart]. rewrite Hc. now apply IH.
Qed.

Lemma contains_char_all (c : ascii) (s : string) :
  contains_char c s = false -> all_chars (fun d => negb (c =? d)%char) s = true.
Proof.
  induction s as [|d s IH]; cbn [contains_char all_chars]; intros H.
  - reflexivity.
  - apply orb_false_iff in H. destruct H as [Hd Hs]. now rewrite Hd, IH.
Qed.

Lemma contains_char_append (c : ascii) (a b : string) :
  contains_char c (a ++ b) = contains_char c a || contains_char c b.
Proof.
  induction a as [|d a IH]; cbn [append contains_char].
  - reflexivity.
  - now rewrite IH, orb_assoc.
Qed.

(** The text after the first occurrence of a value, when the occurrence is
    known to sit right after [pre]. *)
Lemma from_after (pre value post : string) :
  from (Length pre + Length value) (pre ++ value ++ post) = post.
Proof.
  rewrite <- Length_append, append_assoc. apply from_append.
Qed.

Lemma find_char_first (c : ascii) (a b : string) (i : Z) :
  contains_char c a = false ->
  find_from (String c EmptyString) (a ++ String c b) i = i + Length a.
Proof.
  revert i. induction a as [|d a IH]; intros i Ha; cbn [append find_from String.prefix].
  - destruct (ascii_dec c c) as [_|Hne]; [|contradiction].
    replace (String.prefix EmptyString b) with true by now destruct b.
    rewrite Length_Empty. lia.
  - cbn [contains_char] in Ha. apply orb_false_iff in Ha. destruct Ha as [Hd Ha].
    destruct (ascii_dec c d) as [->|Hne].
    + now rewrite Ascii.eqb_refl in Hd.
    + rewrite IH by exact Ha. rewrite Length_String. lia.
Qed.

End ScanFacts.

Import ScanFacts.

Section ScalarDecoding.

(** X1: [ExtractJsonValue] returns normally on every line and key.  When the
    first occurrence of the key pattern is followed by white space and a
    quoted text without a quote inside, it returns exactly that text. *)
Theorem ExtractJsonValue_quoted_value (json key : string) :
  (exists r, ExtractJsonValue json key = Ok r)
  /\ (forall pre ws v post : string,
        json = (pre ++ key_pattern key ++ ws
                ++ String dquote (v ++ String dquote post))%string ->
        IndexOf json (key_pattern key) = Length pre ->
        IsNullOrWhiteSpace ws = true ->
        contains_char dquote v = false ->
        ExtractJsonValue json key = Ok (Some v)).
Proof.
  split; [rewrite ExtractJsonValue_spec; eauto|].
  intros pre ws v post Hjson Hidx Hws Hv.
  rewrite ExtractJsonValue_spec. unfold value_text. rewrite Hidx.
  replace (Length pre <? 0) with false
    by (symmetry; apply Z.ltb_ge; apply Length_nonneg).
  rewrite Hjson, from_after, TrimStart_append by exact Hws.
  cbn [TrimStart]. replace (IsWhiteSpace dquote) with false by reflexivity.
  cbn [scalar_of]. rewrite Ascii.eqb_refl, contains_char_append.
  cbn [contains_char]. rewrite Ascii.eqb_refl, orb_true_r.
  rewrite span_append; [reflexivity | now apply contains_char_all |].
  cbn [stops]. now rewrite Ascii.eqb_refl.
Qed.

(** X2: when the first occurrence of the key pattern is followed by white
    space and a text that starts with neither white space nor a quote, holds
    no [','] or ['}'], and runs up to a [','], a ['}'] or the end of the
    line, [ExtractJsonValue] returns that text trimmed. *)
Theorem ExtractJsonValue_bare_value (json key pre ws token rest : string) :
  json = (pre ++ key_pattern key ++ ws ++ token ++ rest)%string ->
  IndexOf json (key_pattern key) = Length pre ->
  IsNullOrWhiteSpace ws = true ->
  stops (fun c => IsWhiteSpace c || (c =? dquote)%char) token = true ->
  token <> EmptyString ->
  all_chars bare_body token = true ->
  stops bare_body rest = true ->
  ExtractJsonValue json key = Ok (Some (Trim token)).
Proof.
  intros Hjson Hidx Hws Hstart Hne Htok Hrest.
  rewrite ExtractJsonValue_spec. unfold value_text. rewrite Hidx.
  replace (Length pre <? 0) with false
    by (symmetry; apply Z.ltb_ge; apply Length_nonneg).
  rewrite Hjson, from_after, TrimStart_append by exact Hws.
  destruct token as [|c token]; [contradiction|].
  cbn [stops] in Hstart. apply negb_true_iff, orb_false_iff in Hstart.
  destruct Hstart as [Hc Hq].
  cbn [append TrimStart]. rewrite Hc. cbn [scalar_of]. rewrite Hq.
  change (String c (token ++ rest)) with (String c token ++ rest)%string.
  fold bare_body. now rewrite span_append.
Qed.

End ScalarDecoding.

Section NumberDecoding.

Variable double_TryParse : string -> option float.

(** X3: [ExtractNum] returns normally on every text and key, and returns 0
    when the quoted key does not occur in the text. *)
Theorem ExtractNum_absent_key (json key : string) :
  (exists v, ExtractNum double_TryParse json key = Ok v)
  /\ (~ occurs (quoted key) json ->
      ExtractNum double_TryParse json key = Ok 0%float).
Proof.
  split; [apply ExtractNum_returns|].
  intros H. apply IndexOf_absent in H. unfold ExtractNum.
  replace (IndexOf json (quoted key) <? 0) with true
    by (symmetry; apply Z.ltb_lt; lia).
  reflexivity.
Qed.

(** X4: after the first occurrence of the quoted key, [ExtractNum] skips one
    character unseen, then every character that is no digit, ['-'] or ['.'],
    and parses the longest run of digits, ['.'], ['-'], ['+'], ['e'], ['E']
    that follows, with 0 for a run that does not parse.  The skipped text may
    hold the next keys of the object, so a value that is not numeric makes
    the number of a later field the result. *)
Theorem ExtractNum_reads_token
        (json key pre junk token rest : string) (c : ascii) :
  json = (pre ++ quoted key ++ String c (junk ++ token ++ rest))%string ->
  IndexOf json (quoted key) = Length pre ->
  all_chars (fun d => negb (numeric_start d)) junk = true ->
  stops (fun d => negb (numeric_start d)) token = true ->
  token <> EmptyString ->
  all_chars numeric_body token = true ->
  stops numeric_body rest = true ->
  ExtractNum double_TryParse json key =
  Ok (match double_TryParse token with
      | Some v => v
      | None => 0%float
      end).
Proof.
  intros Hjson Hidx Hjunk Hstart Hne Htok Hrest.
  pose proof (Length_nonneg pre) as Hpre. pose proof (Length_nonneg key) as Hkey.
  pose proof (Length_nonneg junk) as Hj. pose proof (Length_nonneg token) as Ht.
  pose proof (Length_nonneg rest) as Hr.
  assert (Hlen : Length json
                 = Length pre + Length key + 3 + Length junk + Length token + Length rest).
  { rewrite Hjson, !Length_append, Length_quoted, Length_String, !Length_append. lia. }
  assert (Hfrom : from (Length pre + Length key + 3) json
                  = (junk ++ token ++ rest)%string).
  { replace (Length pre + Length key + 3)
      with ((Length pre + Length (quoted key)) + 1)
      by (rewrite Length_quoted; lia).
    rewrite <- from_from by (rewrite ?Length_quoted; lia).
    rewrite Hjson, from_after. reflexivity. }
  assert (Htl : 0 < Length token).
  { destruct token; [contradiction|]. rewrite Length_String.
    pose proof (Length_nonneg token). lia. }
  unfold ExtractNum. rewrite Hidx.
  replace (Length pre <? 0) with false by (symmetry; apply Z.ltb_ge; lia).
  rewrite WhileIndex_ok by lia. cbn [rbind].
  assert (Hstart' : stops (fun d => negb (numeric_start d)) (token ++ rest) = true)
    by (destruct token; [contradiction | exact Hstart]).
  rewrite Hfrom, scan_while_append by assumption.
  set (valStart := Length pre + Length key + 3 + Length junk).
  replace (valStart >=? Length json) with false
    by (symmetry; rewrite Z.geb_leb; apply Z.leb_gt; lia).
  rewrite WhileIndex_ok by (unfold valStart; lia). cbn [rbind].
  assert (Hfrom' : from valStart json = (token ++ rest)%string).
  { unfold valStart.
    rewrite <- from_from by lia. rewrite Hfrom.
    rewrite <- (from_append junk (token ++ rest)) at 2. reflexivity. }
  rewrite Hfrom', scan_while_append by assumption.
  rewrite Substring_ok by lia. cbn [rbind]. rewrite Hfrom'.
  replace (Z.to_nat (valStart + Length token - valStart))
    with (String.length token) by (unfold Length; lia).
  rewrite take_append. destruct (double_TryParse token); reflexivity.
Qed.

End NumberDecoding.

(** ** Lines in the producer's layout *)

Lemma find_arr_end_closing (a b : string) (i : Z) :
  bracket_free a = true ->
  find_arr_end (a ++ String "]" b) i 1 = i + Length a.
Proof.
  revert i. induction a as [|c a IH]; intros i Ha; cbn [append find_arr_end].
  - cbn [Ascii.eqb Bool.eqb]. cbn [Z.sub Z.add Z.opp Z.pos_sub Z.eqb].
    rewrite Length_Empty. lia.
  - unfold bracket_free in Ha. cbn [contains_char] in Ha.
    apply andb_true_iff in Ha. destruct Ha as [Ho Hc].
    apply negb_true_iff, orb_false_iff in Ho, Hc.
    destruct Ho as [Ho Ho'], Hc as [Hc Hc'].
    rewrite (Ascii.eqb_sym c "["), Ho, (Ascii.eqb_sym c "]"), Hc.
    rewrite IH by (unfold bracket_free; now rewrite Ho', Hc').
    rewrite Length_String. lia.
Qed.

Lemma levelsKey_no_bracket (indexSymbol : string) :
  contains_char "[" (quoted (levelsKey indexSymbol)) = false.
Proof. unfold levelsKey. destruct (indexSymbol =? "NDX")%string; reflexivity. Qed.

Lemma IsNullOrWhiteSpace_append (a b : string) (c : ascii) :
  IsWhiteSpace c = false -> IsNullOrWhiteSpace (a ++ String c b) = false.
Proof.
  intros Hc. induction a as [|d a IH]; cbn [append IsNullOrWhiteSpace].
  - now rewrite Hc.
  - rewrite IH. apply andb_false_r.
Qed.

(** The array content of a line whose levels array is closed and holds no
    bracket of its own. *)
Lemma array_content_line (indexSymbol json pre mid content post : string) :
  json = (pre ++ quoted (levelsKey indexSymbol) ++ mid
          ++ String "[" (content ++ String "]" post))%string ->
  IndexOf json (quoted (levelsKey indexSymbol)) = Length pre ->
  contains_char "[" mid = false ->
  bracket_free content = true ->
  array_content indexSymbol json = Some content.
Proof.
  intros Hjson Hidx Hmid Hcontent.
  set (key := quoted (levelsKey indexSymbol)) in *.
  pose proof (Length_nonneg pre) as Hpre. pose proof (Length_nonneg key) as Hkey.
  pose proof (Length_nonneg mid) as Hm. pose proof (Length_nonneg content) as Hc.
  assert (Hfrom : from (Length pre) json
                  = ((key ++ mid) ++ String "[" (content ++ String "]" post))%string).
  { rewrite Hjson, from_append, append_assoc. reflexivity. }
  unfold array_content. fold key. rewrite Hidx.
  replace (Length pre <? 0) with false by (symmetry; apply Z.ltb_ge; lia).
  rewrite Hfrom, find_char_first
    by (rewrite contains_char_append; unfold key;
        now rewrite levelsKey_no_bracket, Hmid).
  set (arrStart := Length pre + Length (key ++ mid)).
  assert (Hs : 0 <= arrStart)
    by (unfold arrStart; pose proof (Length_nonneg (key ++ mid)); lia).
  replace (arrStart <? 0) with false by (symmetry; apply Z.ltb_ge; lia).
  assert (Hfrom' : from arrStart json = String "[" (content ++ String "]" post)).
  { unfold arrStart. rewrite <- from_from by (try apply Length_nonneg; lia).
    rewrite Hfrom. apply from_append. }
  rewrite Hfrom'.
  change (find_arr_end (String "[" (content ++ String "]" post)) arrStart 0)
    with (find_arr_end (content ++ String "]" post) (arrStart + 1) 1).
  rewrite find_arr_end_closing by exact Hcontent.
  replace (arrStart + 1 + Length content <? 0) with false
    by (symmetry; apply Z.ltb_ge; lia).
  f_equal.
  replace (from (arrStart + 1) json) with (content ++ String "]" post)%string.
  - replace (Z.to_nat (arrStart + 1 + Length content - arrStart - 1))
      with (String.length content) by (unfold Length; lia).
    apply take_append.
  - rewrite <- from_from by lia. rewrite Hfrom'. reflexivity.
Qed.

(** After a closing brace that nothing opened, the brace count is off by
    one and no object in the producer's layout is recognised any more. *)
Lemma objects_in_offset (arrContent : string) (items : list (string * string))
      (tail : string) :
  forall i braceCount currentStart : Z,
    braceCount <> 0 ->
    Forall (fun item => brace_free (fst item) = true
                        /\ brace_free (snd item) = true) items ->
    brace_free tail = true ->
    objects_in arrContent (flat_array items tail) i braceCount currentStart = [].
Proof.
  induction items as [|[sep body] items IH]; intros i b cs Hb Hitems Htail;
    cbn [flat_array].
  - rewrite <- (append_empty_r tail).
    rewrite objects_in_skip by exact Htail. reflexivity.
  - inversion Hitems as [|item items' [Hsep Hbody] Hrest]; subst.
    cbn [fst snd] in *.
    rewrite objects_in_skip by exact Hsep.
    unfold braced. cbn [append objects_in Ascii.eqb Bool.eqb].
    rewrite <- append_assoc, objects_in_skip by exact Hbody.
    cbn [append objects_in Ascii.eqb Bool.eqb].
    replace (b + 1 - 1 =? 0) with false by (symmetry; apply Z.eqb_neq; lia).
    cbn [andb]. apply IH; try assumption. lia.
Qed.

Section LineDecoding.

Variable double_TryParse : string -> option float.

(** X5: on a line in the producer's layout (the levels key at its first
    occurrence, then a bracketed array of objects whose bodies and separators
    hold no brace or bracket) [ParseGammaLevels] decodes every object, in
    order, and stores those with a strike above zero, adjusted by the
    spread. *)
Theorem flat_line_levels
        (json pre mid post tail : string) (items : list (string * string))
        (st : OpenGamma) :
  json = (pre ++ quoted (levelsKey (indexSymbol st)) ++ mid
          ++ String "[" (flat_array items tail ++ String "]" post))%string ->
  IndexOf json (quoted (levelsKey (indexSymbol st))) = Length pre ->
  contains_char "[" mid = false ->
  bracket_free (flat_array items tail) = true ->
  Forall (fun item => brace_free (fst item) = true
                      /\ brace_free (snd item) = true) items ->
  brace_free tail = true ->
  items <> [] ->
  ParseGammaLevels double_TryParse json st =
  (Ok tt,
   set_gammaLevels
     (adjusted_levels (spread st)
        (map (fun item => raw_level double_TryParse (braced (snd item))) items))
     st).
Proof.
  intros Hjson Hidx Hmid Hfree Hitems Htail Hne.
  rewrite ParseGammaLevels_run. unfold raw_levels.
  rewrite (array_content_line _ _ _ _ _ _ Hjson Hidx Hmid Hfree).
  assert (Hws : IsNullOrWhiteSpace (flat_array items tail) = false).
  { destruct items as [|[sep body] items]; [contradiction|].
    cbn [flat_array]. unfold braced. cbn [append].
    now apply IsNullOrWhiteSpace_append. }
  rewrite Hws.
  pose proof (objects_in_flat items tail EmptyString Hitems Htail) as Hobj.
  cbn [append] in Hobj. change (Length EmptyString) with 0 in Hobj.
  rewrite Hobj, map_map. reflexivity.
Qed.

(** X6: one closing brace that nothing opened, placed before the objects of
    such an array, makes [ParseGammaLevels] drop every object: the level
    list ends empty. *)
Theorem stray_brace_drops_levels
        (json pre mid post sep tail : string) (items : list (string * string))
        (st : OpenGamma) :
  json = (pre ++ quoted (levelsKey (indexSymbol st)) ++ mid
          ++ String "[" ((sep ++ String "}" (flat_array items tail))
                         ++ String "]" post))%string ->
  IndexOf json (quoted (levelsKey (indexSymbol st))) = Length pre ->
  contains_char "[" mid = false ->
  bracket_free (sep ++ String "}" (flat_array items tail)) = true ->
  brace_free sep = true ->
  Forall (fun item => brace_free (fst item) = true
                      /\ brace_free (snd item) = true) items ->
  brace_free tail = true ->
  ParseGammaLevels double_TryParse json st = (Ok tt, set_gammaLevels [] st).
Proof.
  intros Hjson Hidx Hmid Hfree Hsep Hitems Htail.
  rewrite ParseGammaLevels_run. unfold raw_levels.
  rewrite (array_content_line _ _ _ _ _ _ Hjson Hidx Hmid Hfree).
  destruct (IsNullOrWhiteSpace _); [reflexivity|].
  rewrite objects_in_skip by exact Hsep.
  cbn [objects_in Ascii.eqb Bool.eqb].
  replace (0 - 1 =? 0) with false by reflexivity. cbn [andb].
  rewrite objects_in_offset by (assumption || lia). reflexivity.
Qed.

End LineDecoding.

(** * Symbol affinity *)

Lemma Contains_occurs (s value : string) :
  Contains s value = true <-> occurs value s.
Proof.
  unfold Contains, IndexOf.
  destruct (find_from_spec value s 0 ltac:(lia))
    as [[Hr Hno] | [Hr (pre & post & He & Hl)]].
  - rewrite Hr. split; [discriminate | intros H; contradiction].
  - split; [intros _; now exists pre, post | intros _; apply Z.leb_le; lia].
Qed.

Lemma Contains_false (s value : string) :
  Contains s value = false <-> ~ occurs value s.
Proof.
  rewrite <- Contains_occurs. destruct (Contains s value); split; congruence.
Qed.

Lemma occurs_longer (c : ascii) (value s : string) :
  occurs (String c value) s -> occurs value s.
Proof.
  intros (pre & post & H). exists (pre ++ String c EmptyString)%string, post.
  rewrite H, <- append_assoc. reflexivity.
Qed.

Lemma ToUpperChar_twice (c : ascii) : ToUpperChar (ToUpperChar c) = ToUpperChar c.
Proof. destruct c as [[] [] [] [] [] [] [] []]; reflexivity. Qed.

Lemma ToUpper_twice (s : string) : ToUpper (ToUpper s) = ToUpper s.
Proof.
  induction s as [|c s IH]; cbn [ToUpper]; [reflexivity|].
  now rewrite ToUpperChar_twice, IH.
Qed.

(** X7: the index symbol is ["NDX"] exactly when the upper-cased instrument
    name contains ["NQ"], ["SPX"] exactly when it contains ["ES"] and no
    ["NQ"], and empty otherwise; the tests for ["MNQ"] and ["MES"] never
    change the outcome, and the letter case of the name does not matter. *)
Theorem affinity_cases (instrumentName : string) :
  let instr := ToUpper instrumentName in
  (affinity instrumentName = "NDX"%string <-> occurs "NQ" instr)
  /\ (affinity instrumentName = "SPX"%string <->
      ~ occurs "NQ" instr /\ occurs "ES" instr)
  /\ (affinity instrumentName = EmptyString <->
      ~ occurs "NQ" instr /\ ~ occurs "ES" instr)
  /\ affinity (ToUpper instrumentName) = affinity instrumentName.
Proof.
  cbn zeta. unfold affinity. rewrite ToUpper_twice.
  set (instr := ToUpper instrumentName).
  assert (Hm : forall value, Contains instr value = false ->
                 forall c, Contains instr (String c value) = false).
  { intros value H c. apply Contains_false. apply Contains_false in H.
    intros Ho. apply H. now apply occurs_longer in Ho. }
  destruct (Contains instr "NQ") eqn:Hnq.
  - cbn [orb]. apply Contains_occurs in Hnq.
    repeat split; try discriminate; tauto.
  - rewrite (Hm _ Hnq "M"%char). cbn [orb]. apply Contains_false in Hnq.
    destruct (Contains instr "ES") eqn:Hes.
    + cbn [orb]. apply Contains_occurs in Hes.
      repeat split; try discriminate; tauto.
    + rewrite (Hm _ Hes "M"%char). cbn [orb]. apply Contains_false in Hes.
      repeat split; try discriminate; tauto.
Qed.

(** * Schedules of the two threads *)

Section Schedules.

Variable double_TryParse : string -> option float.
Variable int_TryParse : string -> option Z.

Lemma step_run (e : event) (st : OpenGamma) :
  step double_TryParse int_TryParse e st =
  (Ok tt, after_event double_TryParse int_TryParse e st).
Proof.
  destruct e as [now line | | bar close0]; cbn [step after_event].
  - unfold ClientLoop_line. destruct (negb (IsNullOrEmpty line)).
    + apply ParseRegimeUpdate_run.
    + reflexivity.
  - unfold run_posted. run_monad. destruct (Dispatcher st) as [|job jobs].
    + reflexivity.
    + apply DispatcherJob_run.
  - unfold OnBarUpdate. destruct (bar >? 0); reflexivity.
Qed.

Lemma run_run (schedule : list event) :
  forall st : OpenGamma,
    run double_TryParse int_TryParse schedule st =
    (Ok tt,
     fold_left (fun fields e => after_event double_TryParse int_TryParse e fields)
               schedule st).
Proof.
  induction schedule as [|e schedule IH]; intros st; cbn [run fold_left].
  - reflexivity.
  - unfold bind. rewrite step_run. apply IH.
Qed.

Lemma exec_run_cons (e : event) (schedule : list event) (st : OpenGamma) :
  exec (run double_TryParse int_TryParse (e :: schedule)) st =
  exec (run double_TryParse int_TryParse schedule)
       (after_event double_TryParse int_TryParse e st).
Proof. unfold exec. rewrite !run_run. reflexivity. Qed.

Lemma exec_run_nil (st : OpenGamma) :
  exec (run double_TryParse int_TryParse []) st = st.
Proof. reflexivity. Qed.

Lemma adjusted_levels_consistent (spread : float) (raws : list (float * float)) :
  Forall (level_consistent spread) (adjusted_levels spread raws).
Proof.
  unfold adjusted_levels. induction raws as [|raw raws IH]; cbn [filter map].
  - constructor.
  - destruct (strike_positive raw) eqn:Hpos; [|exact IH].
    cbn [map]. constructor; [|exact IH].
    unfold level_consistent, adjusted. cbn [Strike Gex FuturesPrice IsResistance].
    repeat split. exact Hpos.
Qed.

Lemma after_event_consistent (e : event) (st : OpenGamma) :
  levels_consistent st ->
  levels_consistent (after_event double_TryParse int_TryParse e st).
Proof.
  unfold levels_consistent. intros H.
  destruct e as [now line | | bar close0]; cbn [after_event].
  - destruct (negb (IsNullOrEmpty line)); [|exact H].
    unfold after_regime_block. fields. exact H.
  - destruct (Dispatcher st) as [|job jobs]; [exact H|].
    unfold after_job. fields.
    destruct (PrimFloat.ltb 0 (lastClosePrice st)); fields.
    + apply adjusted_levels_consistent.
    + exact H.
  - destruct (bar >? 0); [fields|]; exact H.
Qed.

(** X8: whatever the interleaving of received lines, posted work and bar
    updates, every stored level agrees with the stored spread: its strike is
    above zero, its adjusted price is its strike less the spread now in the
    [spread] field, and its flag is the sign of its exposure. *)
Theorem levels_follow_spread (schedule : list event) (st : OpenGamma) :
  levels_consistent st ->
  levels_consistent (exec (run double_TryParse int_TryParse schedule) st).
Proof.
  revert st. induction schedule as [|e schedule IH]; intros st H.
  - exact H.
  - rewrite exec_run_cons. apply IH. now apply after_event_consistent.
Qed.

(** The fields that only the socket thread writes. *)
Lemma after_event_regime (e : event) (a b : OpenGamma) :
  currentRegime a = currentRegime b ->
  previousRegime a = previousRegime b ->
  regimeCode a = regimeCode b ->
  lastUpdate a = lastUpdate b ->
  indexPrice a = indexPrice b ->
  indexSymbol a = indexSymbol b ->
  let a' := after_event double_TryParse int_TryParse e a in
  let b' := if is_Receive e
            then after_event double_TryParse int_TryParse e b else b in
  currentRegime a' = currentRegime b'
  /\ previousRegime a' = previousRegime b'
  /\ regimeCode a' = regimeCode b'
  /\ lastUpdate a' = lastUpdate b'
  /\ indexPrice a' = indexPrice b'
  /\ indexSymbol a' = indexSymbol b'.
Proof.
  intros Hc Hp Hr Hu Hi Hs. cbn zeta.
  destruct e as [now line | | bar close0]; cbn [after_event is_Receive].
  - destruct (negb (IsNullOrEmpty line)); [|repeat split; assumption].
    unfold after_regime_block. fields. rewrite Hc, Hp, Hi, Hs. repeat split.
  - destruct (Dispatcher a) as [|job jobs]; [repeat split; assumption|].
    pose proof (after_job_frame double_TryParse job (set_Dispatcher jobs a)) as H.
    unfold same_regime_fields in H. revert H. fields.
    intros (H1 & H2 & H3 & H4 & H5 & H6 & _). repeat split; congruence.
  - destruct (bar >? 0); fields; repeat split; assumption.
Qed.

(** X9: the label, the previous label, the code, the timestamp and the
    index price after any schedule are those after its received lines alone:
    posted work and bar updates, however interleaved, never change them. *)
Theorem regime_fields_ignore_ui (schedule : list event) (st : OpenGamma) :
  let a := exec (run double_TryParse int_TryParse schedule) st in
  let b := exec (run double_TryParse int_TryParse (filter is_Receive schedule)) st in
  currentRegime a = currentRegime b
  /\ previousRegime a = previousRegime b
  /\ regimeCode a = regimeCode b
  /\ lastUpdate a = lastUpdate b
  /\ indexPrice a = indexPrice b.
Proof.
  cbn zeta.
  assert (H : forall a b : OpenGamma,
             currentRegime a = currentRegime b ->
             previousRegime a = previousRegime b ->
             regimeCode a = regimeCode b ->
             lastUpdate a = lastUpdate b ->
             indexPrice a = indexPrice b ->
             indexSymbol a = indexSymbol b ->
             let a' := exec (run double_TryParse int_TryParse schedule) a in
             let b' := exec (run double_TryParse int_TryParse
                                 (filter is_Receive schedule)) b in
             currentRegime a' = currentRegime b'
             /\ previousRegime a' = previousRegime b'
             /\ regimeCode a' = regimeCode b'
             /\ lastUpdate a' = lastUpdate b'
             /\ indexPrice a' = indexPrice b').
  { induction schedule as [|e schedule IH]; intros a b Hc Hp Hr Hu Hi Hs; cbn zeta.
    - cbn [filter]. rewrite !exec_run_nil. repeat split; assumption.
    - rewrite exec_run_cons. cbn [filter].
      pose proof (after_event_regime e a b Hc Hp Hr Hu Hi Hs) as Hstep.
      cbn zeta in Hstep. destruct Hstep as (H1 & H2 & H3 & H4 & H5 & H6).
      destruct (is_Receive e).
      + rewrite exec_run_cons. now apply IH.
      + now apply IH. }
  apply H; reflexivity.
Qed.

(** X10: under any schedule the previous label never becomes the
    ["WAITING"] sentinel. *)
Theorem previous_never_waiting (schedule : list event) (st : OpenGamma) :
  previousRegime st <> "WAITING"%string ->
  previousRegime (exec (run double_TryParse int_TryParse schedule) st)
  <> "WAITING"%string.
Proof.
  revert st. induction schedule as [|e schedule IH]; intros st H.
  - exact H.
  - rewrite exec_run_cons. apply IH.
    destruct e as [now line | | bar close0]; cbn [after_event].
    + destruct (negb (IsNullOrEmpty line)); [|exact H].
      unfold after_regime_block. fields.
      destruct (String.eqb_spec (currentRegime st) "WAITING") as [Hw | Hw];
        cbn [negb andb]; [exact H|].
      destruct (negb (currentRegime st =? label_of line)%string); assumption.
    + destruct (Dispatcher st) as [|job jobs]; [exact H|].
      pose proof (after_job_frame double_TryParse job (set_Dispatcher jobs st)) as Hf.
      unfold same_regime_fields in Hf. revert Hf. fields.
      intros (_ & Hp & _). now rewrite Hp.
    + destruct (bar >? 0); fields; exact H.
Qed.

(** X12: with a null chart control and nothing pending, no schedule ever
    posts work or changes the instrument price, the spread or the level
    list. *)
Theorem null_chart_freezes_levels (schedule : list event) (st : OpenGamma) :
  ChartControl st = false ->
  Dispatcher st = [] ->
  let st' := exec (run double_TryParse int_TryParse schedule) st in
  Dispatcher st' = []
  /\ futuresPrice st' = futuresPrice st
  /\ spread st' = spread st
  /\ gammaLevels st' = gammaLevels st.
Proof.
  cbn zeta. revert st. induction schedule as [|e schedule IH]; intros st Hc Hd.
  - rewrite exec_run_nil. auto.
  - rewrite exec_run_cons.
    set (next := after_event double_TryParse int_TryParse e st).
    assert (Hnext : ChartControl next = false /\ Dispatcher next = []
                    /\ futuresPrice next = futuresPrice st
                    /\ spread next = spread st
                    /\ gammaLevels next = gammaLevels st).
    { unfold next. destruct e as [now line | | bar close0]; cbn [after_event].
      - destruct (negb (IsNullOrEmpty line)); [|auto].
        unfold after_regime_block. fields. rewrite Hc. auto.
      - rewrite Hd. auto.
      - destruct (bar >? 0); fields; auto. }
    destruct Hnext as (H1 & H2 & H3 & H4 & H5).
    destruct (IH next H1 H2) as (I1 & I2 & I3 & I4).
    repeat split; congruence.
Qed.

Lemma levelsKey_other (indexSymbol : string) :
  indexSymbol <> "NDX"%string -> levelsKey indexSymbol = "gamma_levels_spx"%string.
Proof.
  intros H. unfold levelsKey.
  destruct (String.eqb_spec indexSymbol "NDX"); [contradiction | reflexivity].
Qed.

Lemma raw_levels_same_key (a b json : string) :
  levelsKey a = levelsKey b ->
  raw_levels double_TryParse a json = raw_levels double_TryParse b json.
Proof. intros H. unfold raw_levels, array_content. now rewrite H. Qed.

(** X13: when the index symbol is neither ["NDX"] nor ["SPX"], no schedule
    changes the index price, and none changes the spread while that index
    price is not above zero; posted work still fills the level list, from
    the [gamma_levels_spx] array, adjusted by whatever spread is stored. *)
Theorem no_affinity_reads_spx_levels (schedule : list event) (st : OpenGamma) :
  indexSymbol st <> "NDX"%string ->
  indexSymbol st <> "SPX"%string ->
  let st' := exec (run double_TryParse int_TryParse schedule) st in
  indexPrice st' = indexPrice st
  /\ (PrimFloat.ltb 0%float (indexPrice st) = false -> spread st' = spread st)
  /\ (forall job : string,
        PrimFloat.ltb 0%float (lastClosePrice st) = true ->
        PrimFloat.ltb 0%float (indexPrice st) = false ->
        gammaLevels (exec (DispatcherJob double_TryParse job) st)
        = adjusted_levels (spread st) (raw_levels double_TryParse "SPX" job)).
Proof.
  intros Hn Hs. cbn zeta. split; [|split].
  - revert st Hn Hs. induction schedule as [|e schedule IH]; intros st Hn Hs.
    + reflexivity.
    + rewrite exec_run_cons.
      set (next := after_event double_TryParse int_TryParse e st).
      assert (Hnext : indexSymbol next = indexSymbol st
                      /\ indexPrice next = indexPrice st).
      { unfold next. destruct e as [now line | | bar close0]; cbn [after_event].
        - destruct (negb (IsNullOrEmpty line)); [|auto].
          unfold after_regime_block. fields.
          destruct (String.eqb_spec (indexSymbol st) "NDX"); [contradiction|].
          destruct (String.eqb_spec (indexSymbol st) "SPX"); [contradiction|].
          auto.
        - destruct (Dispatcher st) as [|job jobs]; [auto|].
          pose proof (after_job_frame double_TryParse job (set_Dispatcher jobs st)) as Hf.
          unfold same_regime_fields in Hf. revert Hf. fields.
          intros (_ & _ & _ & _ & Hi & Hy & _). auto.
        - destruct (bar >? 0); fields; auto. }
      destruct Hnext as [Hy Hi]. rewrite IH by congruence. exact Hi.
  - intros Hidx. revert st Hn Hs Hidx.
    induction schedule as [|e schedule IH]; intros st Hn Hs Hidx.
    + reflexivity.
    + rewrite exec_run_cons.
      set (next := after_event double_TryParse int_TryParse e st).
      assert (Hnext : indexSymbol next = indexSymbol st
                      /\ indexPrice next = indexPrice st
                      /\ spread next = spread st).
      { unfold next. destruct e as [now line | | bar close0]; cbn [after_event].
        - destruct (negb (IsNullOrEmpty line)); [|auto].
          unfold after_regime_block. fields.
          destruct (String.eqb_spec (indexSymbol st) "NDX"); [contradiction|].
          destruct (String.eqb_spec (indexSymbol st) "SPX"); [contradiction|].
          auto.
        - destruct (Dispatcher st) as [|job jobs]; [auto|].
          pose proof (after_job_frame double_TryParse job (set_Dispatcher jobs st)) as Hf.
          unfold same_regime_fields in Hf. revert Hf. fields.
          intros (_ & _ & _ & _ & Hi & Hy & _).
          split; [exact Hy|]. split; [exact Hi|].
          unfold after_job, spread_after_job. fields. rewrite Hidx.
          destruct (PrimFloat.ltb 0 (lastClosePrice st)); reflexivity.
        - destruct (bar >? 0); fields; auto. }
      destruct Hnext as (Hy & Hi & Hsp).
      rewrite IH by congruence. exact Hsp.
  - intros job Hclose Hidx. rewrite exec_DispatcherJob.
    unfold after_job, spread_after_job. rewrite Hclose, Hidx. fields.
    f_equal. apply raw_levels_same_key.
    rewrite levelsKey_other by exact Hn. reflexivity.
Qed.

(** With a chart and nothing pending, the pipeline runs the posted line on
    the fields [ParseRegimeUpdate] left. *)
Lemma after_line_single (now json : string) (st : OpenGamma) :
  ChartControl st = true ->
  Dispatcher st = [] ->
  after_line double_TryParse int_TryParse now json st =
  after_job double_TryParse json
    (set_Dispatcher [] (after_regime_block double_TryParse int_TryParse now json st)).
Proof.
  intros Hc Hd. unfold after_line.
  assert (Hq : Dispatcher (after_regime_block double_TryParse int_TryParse now json st)
               = [json])
    by (unfold after_regime_block; fields; now rewrite Hc, Hd).
  rewrite Hq. reflexivity.
Qed.

(** X14: under NDX or SPX affinity, with a chart, nothing pending and a
    sampled price above zero, a line without the selected spot field sets the
    index price to 0, keeps the spread computed from earlier lines, and
    stores the new levels adjusted by that earlier spread. *)
Theorem stale_spread_on_missing_spot (now json : string) (st : OpenGamma) :
  ChartControl st = true ->
  Dispatcher st = [] ->
  PrimFloat.ltb 0%float (lastClosePrice st) = true ->
  (indexSymbol st = "NDX"%string /\ field json "spot_ndx" = None)
  \/ (indexSymbol st = "SPX"%string /\ field json "spot_spx" = None) ->
  let st' := exec (ApplyLine double_TryParse int_TryParse now json) st in
  indexPrice st' = 0%float
  /\ futuresPrice st' = lastClosePrice st
  /\ spread st' = spread st
  /\ gammaLevels st'
     = adjusted_levels (spread st)
         (raw_levels double_TryParse (indexSymbol st) json).
Proof.
  intros Hc Hd Hclose Hspot. cbn zeta.
  rewrite exec_ApplyLine, after_line_single by assumption.
  set (posted := after_regime_block double_TryParse int_TryParse now json st).
  assert (Hp : indexPrice posted = 0%float
               /\ lastClosePrice posted = lastClosePrice st
               /\ spread posted = spread st
               /\ indexSymbol posted = indexSymbol st).
  { unfold posted, after_regime_block. fields.
    destruct Hspot as [[Hy Hf] | [Hy Hf]]; rewrite Hy, Hf; cbn; auto. }
  destruct Hp as (Hi & Hl & Hs & Hy).
  unfold after_job, spread_after_job. fields. rewrite Hl, Hclose, Hi, Hs, Hy.
  replace (PrimFloat.ltb 0 0) with false by reflexivity. fields. auto.
Qed.

Lemma exec_ApplyLines_cons (now line : string) (lines : list (string * string))
      (st : OpenGamma) :
  exec (ApplyLines double_TryParse int_TryParse ((now, line) :: lines)) st =
  exec (ApplyLines double_TryParse int_TryParse lines)
       (after_line double_TryParse int_TryParse now line st).
Proof.
  unfold exec. cbn [ApplyLines]. unfold bind. now rewrite ApplyLine_run.
Qed.

(** A line through the pipeline leaves nothing pending and never touches the
    chart, the symbol or the sampled price. *)
Lemma after_line_keeps (now line : string) (st : OpenGamma) :
  Dispatcher st = [] ->
  let st' := after_line double_TryParse int_TryParse now line st in
  Dispatcher st' = []
  /\ ChartControl st' = ChartControl st
  /\ indexSymbol st' = indexSymbol st
  /\ lastClosePrice st' = lastClosePrice st.
Proof.
  intros Hd. cbn zeta. unfold after_line.
  set (posted := after_regime_block double_TryParse int_TryParse now line st).
  pose proof (jobs_frame double_TryParse (Dispatcher posted) (set_Dispatcher [] posted))
    as Hf.
  unfold same_regime_fields in Hf. revert Hf. fields.
  intros (_ & _ & _ & _ & _ & Hy & Hl & Hc & Hq).
  rewrite Hq, Hc, Hy, Hl. unfold posted, after_regime_block. fields. auto.
Qed.

(** X11: with a chart, nothing pending and a sampled price above zero, the
    fields after a sequence of lines are those after its last line alone for
    the label, the code, the timestamp, the instrument price and, under NDX
    or SPX affinity, the index price; when that index price is above zero the
    spread and the level list are those of the last line alone as well.
    Only the previous label keeps track of the earlier lines. *)
Theorem last_line_wins (lines : list (string * string)) (now line : string)
        (st : OpenGamma) :
  ChartControl st = true ->
  Dispatcher st = [] ->
  PrimFloat.ltb 0%float (lastClosePrice st) = true ->
  let final := exec (ApplyLines double_TryParse int_TryParse
                                (lines ++ [(now, line)])) st in
  let alone := exec (ApplyLine double_TryParse int_TryParse now line) st in
  currentRegime final = currentRegime alone
  /\ regimeCode final = regimeCode alone
  /\ lastUpdate final = lastUpdate alone
  /\ futuresPrice final = futuresPrice alone
  /\ (indexSymbol st = "NDX"%string \/ indexSymbol st = "SPX"%string ->
      indexPrice final = indexPrice alone
      /\ (PrimFloat.ltb 0%float (indexPrice alone) = true ->
          spread final = spread alone
          /\ gammaLevels final = gammaLevels alone)).
Proof.
  intros Hc Hd Hclose. cbn zeta. rewrite exec_ApplyLine.
  assert (Hseq : exists mid : OpenGamma,
             exec (ApplyLines double_TryParse int_TryParse (lines ++ [(now, line)])) st
             = after_line double_TryParse int_TryParse now line mid
             /\ Dispatcher mid = []
             /\ ChartControl mid = ChartControl st
             /\ indexSymbol mid = indexSymbol st
             /\ lastClosePrice mid = lastClosePrice st).
  { clear Hc Hclose. revert st Hd.
    induction lines as [|[now' line'] lines IH]; intros st Hd; cbn [app].
    - exists st. rewrite exec_ApplyLines_cons. unfold exec. cbn [ApplyLines ret snd].
      auto.
    - rewrite exec_ApplyLines_cons.
      destruct (after_line_keeps now' line' st Hd) as (K1 & K2 & K3 & K4).
      destruct (IH _ K1) as (mid & E & M1 & M2 & M3 & M4).
      exists mid. repeat split; congruence. }
  destruct Hseq as (mid & -> & Md & Mc & My & Ml).
  rewrite !after_line_single by congruence.
  unfold after_job, spread_after_job, after_regime_block. fields.
  rewrite Ml, Hclose, My. fields.
  split; [reflexivity|]. split; [reflexivity|]. split; [reflexivity|].
  split; [reflexivity|].
  intros Hsym.
  assert (Hidx : (if (indexSymbol st =? "NDX")%string
                  then double_out double_TryParse (field line "spot_ndx")
                  else if (indexSymbol st =? "SPX")%string
                       then double_out double_TryParse (field line "spot_spx")
                       else indexPrice mid)
                 = (if (indexSymbol st =? "NDX")%string
                    then double_out double_TryParse (field line "spot_ndx")
                    else if (indexSymbol st =? "SPX")%string
                         then double_out double_TryParse (field line "spot_spx")
                         else indexPrice st)).
  { destruct Hsym as [-> | ->]; reflexivity. }
  rewrite Hidx. split; [reflexivity|].
  intros Hpos. rewrite Hpos. split; reflexivity.
Qed.

(** X16: as long as no bar update has delivered a price above zero (the
    first bar is ignored by [OnBarUpdate]), posted work changes neither the
    instrument price, nor the spread, nor the level list, however many lines
    are received and run. *)
Theorem nothing_drawn_before_first_sample (schedule : list event) (st : OpenGamma) :
  PrimFloat.ltb 0%float (lastClosePrice st) = false ->
  Forall no_sample schedule ->
  let st' := exec (run double_TryParse int_TryParse schedule) st in
  futuresPrice st' = futuresPrice st
  /\ spread st' = spread st
  /\ gammaLevels st' = gammaLevels st.
Proof.
  intros Hclose Hall. cbn zeta. revert st Hclose.
  induction Hall as [|e schedule He _ IH]; intros st Hclose.
  - rewrite exec_run_nil. auto.
  - rewrite exec_run_cons.
    set (next := after_event double_TryParse int_TryParse e st).
    assert (Hnext : PrimFloat.ltb 0%float (lastClosePrice next) = false
                    /\ futuresPrice next = futuresPrice st
                    /\ spread next = spread st
                    /\ gammaLevels next = gammaLevels st).
    { unfold next. destruct e as [now line | | bar close0]; cbn [after_event].
      - destruct (negb (IsNullOrEmpty line)); [|auto].
        unfold after_regime_block. fields. auto.
      - destruct (Dispatcher st) as [|job jobs]; [auto|].
        unfold after_job. fields. rewrite Hclose. fields. auto.
      - cbn [no_sample] in He. destruct (Z.gtb_spec bar 0); fields; [|auto].
        destruct He as [He | He]; [lia | auto]. }
    destruct Hnext as (H1 & H2 & H3 & H4).
    destruct (IH next H1) as (I1 & I2 & I3). repeat split; congruence.
Qed.

(** The inner loop on a connection that only yields lines is the schedule
    of those lines. *)
Lemma read_loop_reading (lines : list (string * string)) (more : list iteration) :
  forall st : OpenGamma,
    read_loop double_TryParse int_TryParse (reading lines ++ more) st =
    read_loop double_TryParse int_TryParse more
      (exec (run double_TryParse int_TryParse
                 (map (fun l => Receive (fst l) (snd l)) lines)) st).
Proof.
  induction lines as [|[now line] lines IH]; intros st; cbn [reading map app].
  - reflexivity.
  - cbn [read_loop running read clock fst snd].
    unfold bind at 1.
    pose proof (step_run (Receive now line) st) as Hstep. cbn [step] in Hstep.
    rewrite Hstep. rewrite exec_run_cons.
    apply (IH (after_event double_TryParse int_TryParse (Receive now line) st)).
Qed.

Lemma ClientLoop_refused (between : list attempt) (after : list attempt) :
  Forall refused between ->
  forall st : OpenGamma,
    ClientLoop double_TryParse int_TryParse (between ++ after) st =
    ClientLoop double_TryParse int_TryParse after st.
Proof.
  induction 1 as [|a between [Hs Hc] _ IH]; intros st; cbn [app].
  - reflexivity.
  - cbn [ClientLoop]. rewrite Hs, Hc. unfold bind, ret. apply IH.
Qed.

(** X15: a connection that ends (end of stream or read failure) after some
    lines, any number of refused connection attempts, and a new connection
    that delivers further lines leave the fields exactly as one connection
    delivering all the lines: reconnecting resets nothing and loses
    nothing, and empty lines are skipped. *)
Theorem reconnect_is_transparent
        (first second : list (string * string)) (ending : iteration)
        (between : list attempt) (st : OpenGamma) :
  running ending = true ->
  read ending = EndOfStream \/ read ending = ReadFailed ->
  Forall refused between ->
  exec (ClientLoop double_TryParse int_TryParse
          (mkAttempt true (Some (reading first ++ [ending]))
           :: between ++ [mkAttempt true (Some (reading second))])) st
  = exec (ClientLoop double_TryParse int_TryParse
            [mkAttempt true (Some (reading (first ++ second)))]) st
  /\ exec (ClientLoop double_TryParse int_TryParse
             [mkAttempt true (Some (reading (first ++ second)))]) st
     = exec (run double_TryParse int_TryParse
               (map (fun l => Receive (fst l) (snd l)) (first ++ second))) st.
Proof.
  intros Hrun Hend Hbetween.
  assert (Hone : forall (lines : list (string * string)) (s : OpenGamma),
             read_loop double_TryParse int_TryParse (reading lines) s
             = (Ok tt, exec (run double_TryParse int_TryParse
                               (map (fun l => Receive (fst l) (snd l)) lines)) s)).
  { intros lines s. rewrite <- (app_nil_r (reading lines)).
    rewrite read_loop_reading. reflexivity. }
  assert (Hstop : forall s : OpenGamma,
             read_loop double_TryParse int_TryParse [ending] s = (Ok tt, s)).
  { intros s. cbn [read_loop]. rewrite Hrun.
    destruct Hend as [-> | ->]; reflexivity. }
  assert (Hsplit : forall s : OpenGamma,
             exec (run double_TryParse int_TryParse
                     (map (fun l => Receive (fst l) (snd l)) (first ++ second))) s
             = exec (run double_TryParse int_TryParse
                       (map (fun l => Receive (fst l) (snd l)) second))
                    (exec (run double_TryParse int_TryParse
                             (map (fun l => Receive (fst l) (snd l)) first)) s)).
  { intros s. unfold exec. rewrite !run_run. cbn [snd].
    now rewrite map_app, fold_left_app. }
  split.
  - unfold exec. cbn [ClientLoop started connection]. unfold bind at 1.
    rewrite read_loop_reading, Hstop.
    rewrite ClientLoop_refused by exact Hbetween.
    cbn [ClientLoop started connection]. unfold bind, ret.
    rewrite !Hone. cbn [snd]. now rewrite Hsplit.
  - unfold exec at 1. cbn [ClientLoop started connection]. unfold bind, ret.
    now rewrite Hone.
Qed.

(** X17: a bar update past the first bar with a close above zero, then a
    non-empty line, then the posted work: with a chart and nothing pending,
    the instrument price is that close, the spread is recomputed from it when
    the line's index price is above zero, the level list is the line's,
    adjusted by the stored spread, and nothing is left pending. *)
Theorem sample_feeds_next_line
        (CurrentBar : Z) (close0 : float) (now line : string) (st : OpenGamma) :
  CurrentBar > 0 ->
  PrimFloat.ltb 0%float close0 = true ->
  ChartControl st = true ->
  Dispatcher st = [] ->
  line <> EmptyString ->
  let st' := exec (run double_TryParse int_TryParse
                       [BarUpdate CurrentBar close0; Receive now line; RunPosted])
                  st in
  futuresPrice st' = close0
  /\ Dispatcher st' = []
  /\ (PrimFloat.ltb 0%float (indexPrice st') = true ->
      spread st' = PrimFloat.sub (Math_Round (indexPrice st')) (Math_Round close0))
  /\ gammaLevels st'
     = adjusted_levels (spread st')
         (raw_levels double_TryParse (indexSymbol st) line).
Proof.
  intros Hbar Hclose Hc Hd Hline. cbn zeta.
  rewrite !exec_run_cons, exec_run_nil. cbn [after_event].
  replace (CurrentBar >? 0) with true by (symmetry; apply Z.gtb_lt; lia).
  replace (negb (IsNullOrEmpty line)) with true
    by (destruct line; [contradiction | reflexivity]).
  unfold after_regime_block. fields. rewrite Hc, Hd. cbn [app].
  unfold after_job, spread_after_job. fields. rewrite Hclose. fields.
  split; [reflexivity|]. split; [reflexivity|]. split; [|reflexivity].
  intros Hpos.
  destruct (PrimFloat.ltb 0
              (if (indexSymbol st =? "NDX")%string
               then double_out double_TryParse (field line "spot_ndx")
               else if (indexSymbol st =? "SPX")%string
                    then double_out double_TryParse (field line "spot_spx")
                    else indexPrice st)) eqn:Hidx; fields.
  - reflexivity.
  - fields_in Hpos. congruence.
Qed.

(** X18: when two lines are received before the UI thread runs the first
    posted item, that item stores the levels of the first line, adjusted by a
    spread computed from the index price of the second line, while the label
    already is the second line's; the second item is still pending. *)
Theorem first_job_sees_second_line
        (now1 line1 now2 line2 : string) (st : OpenGamma) :
  ChartControl st = true ->
  Dispatcher st = [] ->
  PrimFloat.ltb 0%float (lastClosePrice st) = true ->
  line1 <> EmptyString ->
  line2 <> EmptyString ->
  let received := exec (run double_TryParse int_TryParse
                            [Receive now1 line1; Receive now2 line2]) st in
  let st' := exec (run double_TryParse int_TryParse
                       [Receive now1 line1; Receive now2 line2; RunPosted]) st in
  currentRegime st' = label_of line2
  /\ indexPrice st' = indexPrice received
  /\ Dispatcher st' = [line2]
  /\ (PrimFloat.ltb 0%float (indexPrice received) = true ->
      spread st' = PrimFloat.sub (Math_Round (indexPrice received))
                                 (Math_Round (lastClosePrice st)))
  /\ gammaLevels st'
     = adjusted_levels (spread st')
         (raw_levels double_TryParse (indexSymbol st) line1).
Proof.
  intros Hc Hd Hclose Hl1 Hl2. cbn zeta.
  rewrite !exec_run_cons, !exec_run_nil. cbn [after_event].
  replace (negb (IsNullOrEmpty line1)) with true
    by (destruct line1; [contradiction | reflexivity]).
  replace (negb (IsNullOrEmpty line2)) with true
    by (destruct line2; [contradiction | reflexivity]).
  unfold after_regime_block. fields. rewrite Hc, Hd. cbn [app].
  unfold after_job, spread_after_job. fields. rewrite Hclose. fields.
  split; [reflexivity|]. split; [reflexivity|]. split; [reflexivity|].
  split; [|reflexivity].
  intros Hpos. fields_in Hpos. rewrite Hpos. reflexivity.
Qed.

(** X19: a line in which none of the key patterns occurs (any stray text)
    is applied all the same: the label becomes ["UNKNOWN"], the code 0 and,
    under NDX or SPX affinity, the index price 0; a real label that was
    current moves to the previous label. *)
Theorem keyless_line_overwrites (now json : string) (st : OpenGamma) :
  ~ occurs (key_pattern "regime") json ->
  ~ occurs (key_pattern "regime_code") json ->
  ~ occurs (key_pattern "spot_ndx") json ->
  ~ occurs (key_pattern "spot_spx") json ->
  let st' := exec (ApplyLine double_TryParse int_TryParse now json) st in
  currentRegime st' = "UNKNOWN"%string
  /\ regimeCode st' = 0
  /\ lastUpdate st' = now
  /\ (indexSymbol st = "NDX"%string \/ indexSymbol st = "SPX"%string ->
      indexPrice st' = 0%float)
  /\ (currentRegime st <> "WAITING"%string ->
      currentRegime st <> "UNKNOWN"%string ->
      previousRegime st' = currentRegime st).
Proof.
  intros Hr Hrc Hn Hs. cbn zeta.
  assert (Habsent : forall key, ~ occurs (key_pattern key) json ->
                                field json key = None).
  { intros key H. apply IndexOf_absent in H. unfold field.
    rewrite ExtractJsonValue_spec.
    replace (IndexOf json (key_pattern key) <? 0) with true
      by (symmetry; apply Z.ltb_lt; lia).
    reflexivity. }
  rewrite exec_ApplyLine.
  destruct (after_line_frame double_TryParse int_TryParse now json st)
    as (Hc & Hp & Hcode & Hu & Hi & _).
  rewrite Hc, Hp, Hcode, Hu, Hi. unfold after_regime_block, label_of. fields.
  rewrite (Habsent _ Hr), (Habsent _ Hrc), (Habsent _ Hn), (Habsent _ Hs).
  cbn [int_out double_out].
  split; [reflexivity|]. split; [reflexivity|]. split; [reflexivity|]. split.
  - intros [-> | ->]; reflexivity.
  - intros Hw Hu'.
    destruct (String.eqb_spec (currentRegime st) "WAITING"); [contradiction|].
    destruct (String.eqb_spec (currentRegime st) "UNKNOWN"); [contradiction|].
    reflexivity.
Qed.

Lemma after_job_idle (job : string) (s : OpenGamma) :
  PrimFloat.ltb 0%float (lastClosePrice s) = false ->
  after_job double_TryParse job s = s.
Proof. intros H. unfold after_job. now rewrite H. Qed.

Lemma after_job_sampled (job : string) (s : OpenGamma) :
  PrimFloat.ltb 0%float (lastClosePrice s) = true ->
  after_job double_TryParse job s =
  set_gammaLevels
    (adjusted_levels (spread_after_job s)
       (raw_levels double_TryParse (indexSymbol s) job))
    (set_spread (spread_after_job s) (set_futuresPrice (lastClosePrice s) s)).
Proof. intros H. unfold after_job. now rewrite H. Qed.

(** The fields [ParseRegimeUpdate] writes are already those of the line
    once the line has been applied. *)
Lemma after_regime_block_again (now json : string) (s : OpenGamma) :
  currentRegime s = label_of json ->
  regimeCode s = int_out int_TryParse (field json "regime_code") ->
  lastUpdate s = now ->
  indexPrice s =
    (if (indexSymbol s =? "NDX")%string
     then double_out double_TryParse (field json "spot_ndx")
     else if (indexSymbol s =? "SPX")%string
          then double_out double_TryParse (field json "spot_spx")
          else indexPrice s) ->
  set_Dispatcher (Dispatcher s)
    (after_regime_block double_TryParse int_TryParse now json s) = s.
Proof.
  intros Hc Hr Hu Hi. destruct s as [cur prev rc upd ip fp sp sym lcp gl chart posted].
  cbn [currentRegime regimeCode lastUpdate indexPrice indexSymbol] in Hc, Hr, Hu, Hi.
  unfold after_regime_block, set_Dispatcher. fields.
  rewrite <- Hi, <- Hr, Hu, <- Hc, String.eqb_refl, andb_false_r. reflexivity.
Qed.

(** X20: with nothing pending, applying the same line a second time at the
    same clock reading changes no field at all. *)
Theorem resubmission_changes_nothing (now json : string) (st : OpenGamma) :
  Dispatcher st = [] ->
  exec (ApplyLine double_TryParse int_TryParse now json)
       (exec (ApplyLine double_TryParse int_TryParse now json) st)
  = exec (ApplyLine double_TryParse int_TryParse now json) st.
Proof.
  intros Hd. rewrite !exec_ApplyLine.
  destruct (after_line_keeps now json st Hd) as (Kd & Kc & Ky & Kl).
  destruct (after_line_frame double_TryParse int_TryParse now json st)
    as (Fc & _ & Fr & Fu & Fi & _).
  set (once := after_line double_TryParse int_TryParse now json st) in *.
  assert (Hposted : set_Dispatcher []
                      (after_regime_block double_TryParse int_TryParse now json once)
                    = once).
  { rewrite <- Kd at 1. apply after_regime_block_again.
    - rewrite Fc. reflexivity.
    - rewrite Fr. reflexivity.
    - rewrite Fu. reflexivity.
    - rewrite Fi, Ky. unfold after_regime_block. fields.
      destruct (indexSymbol st =? "NDX")%string;
        [|destruct (indexSymbol st =? "SPX")%string]; reflexivity. }
  destruct (ChartControl st) eqn:Hc.
  - rewrite (after_line_single now json once Kc Kd), Hposted.
    destruct (PrimFloat.ltb 0 (lastClosePrice st)) eqn:Hclose.
    + assert (Honce : once = after_job double_TryParse json
                               (set_Dispatcher []
                                  (after_regime_block double_TryParse int_TryParse
                                                      now json st)))
        by (unfold once; now apply after_line_single).
      set (posted := set_Dispatcher []
                       (after_regime_block double_TryParse int_TryParse now json st))
        in *.
      assert (Hpl : lastClosePrice posted = lastClosePrice st) by reflexivity.
      rewrite after_job_sampled in Honce by (rewrite Hpl; exact Hclose).
      rewrite after_job_sampled by (rewrite Kl; exact Hclose).
      assert (Hsp : spread_after_job once = spread once).
      { unfold spread_after_job. rewrite Kl, Hclose.
        destruct (PrimFloat.ltb 0 (indexPrice once)) eqn:Hpos; [|reflexivity].
        rewrite Honce at 2. fields. unfold spread_after_job.
        rewrite Hpl, Hclose.
        assert (Hpi : indexPrice posted = indexPrice once)
          by (rewrite Honce; reflexivity).
        rewrite Hpi, Hpos. reflexivity. }
      rewrite Hsp, Kl, Ky.
      assert (Hg : gammaLevels once
                   = adjusted_levels (spread once)
                       (raw_levels double_TryParse (indexSymbol st) json)).
      { rewrite Honce at 1. fields.
        assert (Hs : spread once = spread_after_job posted)
          by (rewrite Honce; reflexivity).
        rewrite Hs. reflexivity. }
      assert (Hf : futuresPrice once = lastClosePrice st)
        by (rewrite Honce; reflexivity).
      rewrite <- Hg, <- Hf.
      destruct once; reflexivity.
    + apply after_job_idle. rewrite Kl. exact Hclose.
  - assert (Hplain : after_line double_TryParse int_TryParse now json once
                     = set_Dispatcher []
                         (after_regime_block double_TryParse int_TryParse now json once)).
    { unfold after_line.
      assert (Hq : Dispatcher (after_regime_block double_TryParse int_TryParse
                                                  now json once) = [])
        by (unfold after_regime_block; fields; now rewrite Kc, Kd).
      rewrite Hq. reflexivity. }
    rewrite Hplain. exact Hposted.
Qed.

End Schedules.

(** * The further properties on sample inputs *)

Lemma ExtractJsonValue_quoted_value_witness :
  ExtractJsonValue line_grind "regime" = Ok (Some "GRIND UP"%string).
Proof.
  apply (proj2 (ExtractJsonValue_quoted_value line_grind "regime")
           "{"%string EmptyString "GRIND UP"%string grind_after_label);
    vm_compute; reflexivity.
Defined.

Lemma ExtractJsonValue_bare_value_witness :
  ExtractJsonValue line_grind "regime_code" = Ok (Some (Trim "1 ")).
Proof.
  apply (ExtractJsonValue_bare_value line_grind "regime_code"
           grind_to_code " "%string "1 "%string grind_after_code);
    try (vm_compute; reflexivity).
  discriminate.
Defined.

Lemma ExtractNum_absent_key_witness :
  ~ occurs (quoted "strike") line_no_spot
  /\ ExtractNum decimal_TryParse line_no_spot "strike" = Ok 0%float.
Proof.
  assert (H : ~ occurs (quoted "strike") line_no_spot)
    by (apply IndexOf_absent; vm_compute; reflexivity).
  split; [exact H|].
  apply (proj2 (ExtractNum_absent_key decimal_TryParse line_no_spot "strike") H).
Defined.

Lemma ExtractNum_reads_token_witness :
  ExtractNum decimal_TryParse object_null_strike "strike" = Ok 7%float.
Proof.
  apply (ExtractNum_reads_token decimal_TryParse object_null_strike "strike"
           "{"%string ("null," ++ quoted "gex" ++ ":")%string "7"%string "}"%string
           ":"%char);
    try (vm_compute; reflexivity).
  discriminate.
Defined.

Lemma sample_items_brace_free :
  Forall (fun item : string * string =>
            brace_free (fst item) = true /\ brace_free (snd item) = true)
         [(EmptyString, body_100); (","%string, body_110)].
Proof. repeat constructor. Defined.

Lemma flat_line_levels_witness :
  ParseGammaLevels decimal_TryParse line_grind spx_state =
  (Ok tt,
   set_gammaLevels
     (adjusted_levels (spread spx_state)
        [raw_level decimal_TryParse (braced body_100);
         raw_level decimal_TryParse (braced body_110)]) spx_state).
Proof.
  apply (flat_line_levels decimal_TryParse line_grind grind_head ":"%string
           "}"%string EmptyString
           [(EmptyString, body_100); (","%string, body_110)] spx_state);
    try (vm_compute; reflexivity).
  - exact sample_items_brace_free.
  - discriminate.
Defined.

Lemma stray_brace_drops_levels_witness :
  ParseGammaLevels decimal_TryParse line_stray spx_state
  = (Ok tt, set_gammaLevels [] spx_state).
Proof.
  apply (stray_brace_drops_levels decimal_TryParse line_stray "{"%string ":"%string
           "}"%string EmptyString EmptyString [(EmptyString, body_100)] spx_state);
    try (vm_compute; reflexivity).
  repeat constructor.
Defined.

Lemma affinity_cases_witness :
  occurs "NQ" (ToUpper "mnq 12-25") /\ affinity "mnq 12-25" = "NDX"%string.
Proof.
  assert (H : occurs "NQ" (ToUpper "mnq 12-25"))
    by (exists "M"%string, " 12-25"%string; reflexivity).
  split; [exact H|].
  apply (proj2 (proj1 (affinity_cases "mnq 12-25")) H).
Defined.

Lemma levels_follow_spread_witness :
  levels_consistent (initial "SPX" true)
  /\ levels_consistent
       (exec (run decimal_TryParse integer_TryParse sample_schedule)
             (initial "SPX" true)).
Proof.
  assert (H : levels_consistent (initial "SPX" true)) by constructor.
  split; [exact H|].
  apply (levels_follow_spread decimal_TryParse integer_TryParse sample_schedule
           (initial "SPX" true) H).
Defined.

Lemma previous_never_waiting_witness :
  previousRegime
    (exec (run decimal_TryParse integer_TryParse sample_schedule)
          (initial "SPX" true)) <> "WAITING"%string.
Proof.
  apply (previous_never_waiting decimal_TryParse integer_TryParse sample_schedule
           (initial "SPX" true)).
  discriminate.
Defined.

Lemma last_line_wins_witness :
  currentRegime
    (exec (ApplyLines decimal_TryParse integer_TryParse
             ([("09:29:58"%string, line_no_spot)] ++ [("09:30:00"%string, line_grind)]))
          spx_state)
  = currentRegime
      (exec (ApplyLine decimal_TryParse integer_TryParse "09:30:00" line_grind)
            spx_state).
Proof.
  apply (last_line_wins decimal_TryParse integer_TryParse
           [("09:29:58"%string, line_no_spot)] "09:30:00" line_grind spx_state);
    reflexivity.
Defined.

Lemma null_chart_freezes_levels_witness :
  gammaLevels
    (exec (run decimal_TryParse integer_TryParse sample_schedule) headless_state)
  = gammaLevels headless_state.
Proof.
  apply (null_chart_freezes_levels decimal_TryParse integer_TryParse
           sample_schedule headless_state); reflexivity.
Defined.

Lemma no_affinity_reads_spx_levels_witness :
  gammaLevels (exec (DispatcherJob decimal_TryParse line_grind) plain_state)
  = adjusted_levels (spread plain_state)
      (raw_levels decimal_TryParse "SPX" line_grind).
Proof.
  apply (proj2 (proj2 (no_affinity_reads_spx_levels decimal_TryParse integer_TryParse
                         sample_schedule plain_state
                         ltac:(discriminate) ltac:(discriminate))));
    reflexivity.
Defined.

Lemma stale_spread_on_missing_spot_witness :
  spread
    (exec (ApplyLine decimal_TryParse integer_TryParse "09:30:00" line_no_spot)
          spx_state)
  = spread spx_state.
Proof.
  apply (stale_spread_on_missing_spot decimal_TryParse integer_TryParse
           "09:30:00" line_no_spot spx_state); try reflexivity.
  right. split; vm_compute; reflexivity.
Defined.

Lemma reconnect_is_transparent_witness :
  exec (ClientLoop decimal_TryParse integer_TryParse
          (mkAttempt true
             (Some (reading [("09:30:00"%string, line_no_spot)]
                    ++ [mkIteration true "09:30:01" EndOfStream]))
           :: [mkAttempt true None]
              ++ [mkAttempt true (Some (reading [("09:30:07"%string, line_grind)]))]))
       spx_state
  = exec (ClientLoop decimal_TryParse integer_TryParse
            [mkAttempt true
               (Some (reading ([("09:30:00"%string, line_no_spot)]
                               ++ [("09:30:07"%string, line_grind)])))])
         spx_state.
Proof.
  exact (proj1 (reconnect_is_transparent decimal_TryParse integer_TryParse
                  [("09:30:00"%string, line_no_spot)]
                  [("09:30:07"%string, line_grind)]
                  (mkIteration true "09:30:01" EndOfStream)
                  [mkAttempt true None] spx_state
                  eq_refl (or_introl eq_refl)
                  (Forall_cons (mkAttempt true None)
                     (conj eq_refl eq_refl : refused (mkAttempt true None))
                     (Forall_nil _)))).
Defined.

Lemma nothing_drawn_before_first_sample_witness :
  gammaLevels
    (exec (run decimal_TryParse integer_TryParse early_schedule) (initial "SPX" true))
  = gammaLevels (initial "SPX" true).
Proof.
  apply (nothing_drawn_before_first_sample decimal_TryParse integer_TryParse
           early_schedule (initial "SPX" true)).
  - reflexivity.
  - constructor; [left; lia|]. constructor; [exact I|].
    constructor; [exact I | constructor].
Defined.

Lemma sample_feeds_next_line_witness :
  futuresPrice
    (exec (run decimal_TryParse integer_TryParse
             [BarUpdate 5 5001.75%float; Receive "09:30:05" line_grind; RunPosted])
          spx_state)
  = 5001.75%float.
Proof.
  apply (sample_feeds_next_line decimal_TryParse integer_TryParse
           5 5001.75%float "09:30:05" line_grind spx_state);
    try reflexivity.
  discriminate.
Defined.

Lemma first_job_sees_second_line_witness :
  Dispatcher
    (exec (run decimal_TryParse integer_TryParse
             [Receive "09:30:00" line_no_spot; Receive "09:30:05" line_grind;
              RunPosted])
          spx_state)
  = [line_grind].
Proof.
  apply (first_job_sees_second_line decimal_TryParse integer_TryParse
           "09:30:00" line_no_spot "09:30:05" line_grind spx_state);
    try reflexivity; discriminate.
Defined.

Lemma keyless_line_overwrites_witness :
  currentRegime
    (exec (ApplyLine decimal_TryParse integer_TryParse "09:30:00" "hello") spx_state)
  = "UNKNOWN"%string.
Proof.
  apply (keyless_line_overwrites decimal_TryParse integer_TryParse
           "09:30:00" "hello" spx_state);
    apply IndexOf_absent; vm_compute; reflexivity.
Defined.

Lemma resubmission_changes_nothing_witness :
  exec (ApplyLine decimal_TryParse integer_TryParse "09:30:00" line_grind)
       (exec (ApplyLine decimal_TryParse integer_TryParse "09:30:00" line_grind)
             spx_state)
  = exec (ApplyLine decimal_TryParse integer_TryParse "09:30:00" line_grind) spx_state.
Proof.
  apply (resubmission_changes_nothing decimal_TryParse integer_TryParse
           "09:30:00" line_grind spx_state).
  reflexivity.
Defined.
